(** * Genz-Keister quadrature rules of chaospy: a verified model

    Shallow embedding of [chaospy/genz_keister.py]: the four rule-table
    functions [gk16], [gk18], [gk22], [gk24] and the multivariate combinator
    [gk].

    Numbers.  The source computes with numpy [float64] arrays.  Here an array
    is a [list Q] and every decimal literal of the source denotes the rational
    number it spells; sums, products and quotients are exact.  Rounding is
    therefore left out of the model, and every statement below that speaks of
    a tolerance is established for the exact values.  The only irrational
    quantity of the source, [np.sqrt(2)], is the binary64 number nearest to
    the square root of two (lemma [np_sqrt2_nearest]).

    Errors.  Python exceptions are values of [exn]; a computation returns a
    [result]. *)

From Stdlib Require Import QArith Qabs ZArith List Bool Lia Setoid Morphisms.
Import ListNotations.

(** ** Results of Python computations *)

Inductive exn : Type :=
| IndexError
| TypeError
| NameError
| AttributeError.

(** [NaN] stands for the one numerical accident the code can run into: the
    in-place division [w /= np.sum(w)] with a zero sum.  numpy raises nothing
    there, it fills the array with nan (0/0) and warns; rational numbers have
    no such value, so the outcome is kept apart. *)
Inductive result (A : Type) : Type :=
| Ok (a : A)
| Raise (e : exn)
| NaN.

Arguments Ok {A} a.
Arguments Raise {A} e.
Arguments NaN {A}.

Definition bind {A B : Type} (r : result A) (k : A -> result B) : result B :=
  match r with
  | Ok a => k a
  | Raise e => Raise e
  | NaN => NaN
  end.

Declare Scope py_scope.
Delimit Scope py_scope with py.
Notation "x <- c ;; k" := (bind c (fun x => k))
  (at level 61, c at next level, right associativity) : py_scope.
Notation "' p <- c ;; k" := (bind c (fun p => k))
  (at level 61, p pattern, c at next level, right associativity) : py_scope.
Open Scope py_scope.

(** A list comprehension [[f(a) for a in l]]: the elements are evaluated from
    left to right and the first exception aborts the whole comprehension. *)
Fixpoint comprehension {A B : Type} (f : A -> result B) (l : list A)
  : result (list B) :=
  match l with
  | [] => Ok []
  | a :: t => b <- f a ;; bs <- comprehension f t ;; Ok (b :: bs)
  end.

(** ** Python integers, sequences and indexing *)

(** The [order] argument: an [int], or a sequence of [int]s. *)
Inductive pyobj : Type :=
| PyInt (n : Z)
| PySeq (l : list Z).

(** [l[k]] on a Python list: a negative integer counts from the end, an
    integer outside [-len, len) raises IndexError, and a sequence is no
    index at all (TypeError). *)
Definition getitem {A : Type} (l : list A) (k : pyobj) : result A :=
  match k with
  | PySeq _ => Raise TypeError
  | PyInt n =>
      let len := Z.of_nat (length l) in
      let i := if (n <? 0)%Z then (n + len)%Z else n in
      if ((0 <=? i) && (i <? len))%Z
      then match nth_error l (Z.to_nat i) with
           | Some a => Ok a
           | None => Raise IndexError
           end
      else Raise IndexError
  end.

(** ** numpy arrays of floats *)

Open Scope Q_scope.

Definition array : Type := list Q.

(** [np.zeros(n)] *)
Definition zeros (n : Z) : array := repeat 0 (Z.to_nat n).

(** [a[i] = v] with a literal index [i >= 0]; numpy raises IndexError when
    [i] is not below the size of the array. *)
Fixpoint setitem (a : array) (i : nat) (v : Q) : result array :=
  match a, i with
  | [], _ => Raise IndexError
  | _ :: t, O => Ok (v :: t)
  | h :: t, S j => t' <- setitem t j v ;; Ok (h :: t')
  end.

(** One assignment statement [a[i] = v] of a table, and a block of them. *)
Definition assign : Type := (nat * Q)%type.

Notation "i <~ v" := (i%nat, v%Q) (at level 70, only parsing) : Q_scope.

Fixpoint fill (a : array) (block : list assign) : result array :=
  match block with
  | [] => Ok a
  | (i, v) :: rest => a' <- setitem a i v ;; fill a' rest
  end.

(** [np.sum(a)] and [np.prod(a)] *)
Definition np_sum (a : array) : Q := fold_right (fun v s => Qred (v + s)) 0 a.
Definition np_prod (a : array) : Q := fold_right (fun v p => Qred (v * p)) 1 a.

(** [np.sqrt(2)]: the binary64 number 0x3FF6A09E667F3BCD. *)
Definition np_sqrt2 : Q := 6369051672525773 # 4503599627370496.

(** [w /= np.sum(w)] *)
Definition divide_by_sum (w : array) : result array :=
  let s := np_sum w in
  if Qeq_bool s 0 then NaN else Ok (map (fun v => Qred (v / s)) w).

(** [x *= np.sqrt(2)] *)
Definition scale_by_sqrt2 (x : array) : array := map (fun v => Qred (v * np_sqrt2)) x.

(** Tables of [gk16] (one pair of definitions per branch of its if/elif chain). *)

Definition gk16_x1 : list assign :=
  [ 0 <~ 0.0000000000000000E+00 ].

Definition gk16_w1 : list assign :=
  [ 0 <~ 1.7724538509055159E+00 ].

Definition gk16_x3 : list assign :=
  [ 0 <~ -1.2247448713915889E+00;
    1 <~ 0.0000000000000000E+00;
    2 <~ 1.2247448713915889E+00 ].

Definition gk16_w3 : list assign :=
  [ 0 <~ 2.9540897515091930E-01;
    1 <~ 1.1816359006036772E+00;
    2 <~ 2.9540897515091930E-01 ].

Definition gk16_x7 : list assign :=
  [ 0 <~ -2.9592107790638380E+00;
    1 <~ -1.2247448713915889E+00;
    2 <~ -5.2403354748695763E-01;
    3 <~ 0.0000000000000000E+00;
    4 <~ 5.2403354748695763E-01;
    5 <~ 1.2247448713915889E+00;
    6 <~ 2.9592107790638380E+00 ].

Definition gk16_w7 : list assign :=
  [ 0 <~ 1.2330680655153448E-03;
    1 <~ 2.4557928535031393E-01;
    2 <~ 2.3286251787386100E-01;
    3 <~ 8.1310410832613500E-01;
    4 <~ 2.3286251787386100E-01;
    5 <~ 2.4557928535031393E-01;
    6 <~ 1.2330680655153448E-03 ].

Definition gk16_x9 : list assign :=
  [ 0 <~ -2.9592107790638380E+00;
    1 <~ -2.0232301911005157E+00;
    2 <~ -1.2247448713915889E+00;
    3 <~ -5.2403354748695763E-01;
    4 <~ 0.0000000000000000E+00;
    5 <~ 5.2403354748695763E-01;
    6 <~ 1.2247448713915889E+00;
    7 <~ 2.0232301911005157E+00;
    8 <~ 2.9592107790638380E+00 ].

Definition gk16_w9 : list assign :=
  [ 0 <~ 1.6708826306882348E-04;
    1 <~ 1.4173117873979098E-02;
    2 <~ 1.6811892894767771E-01;
    3 <~ 4.7869428549114124E-01;
    4 <~ 4.5014700975378197E-01;
    5 <~ 4.7869428549114124E-01;
    6 <~ 1.6811892894767771E-01;
    7 <~ 1.4173117873979098E-02;
    8 <~ 1.6708826306882348E-04 ].

Definition gk16_x17 : list assign :=
  [ 0 <~ -4.4995993983103881E+00;
    1 <~ -3.6677742159463378E+00;
    2 <~ -2.9592107790638380E+00;
    3 <~ -2.0232301911005157E+00;
    4 <~ -1.8357079751751868E+00;
    5 <~ -1.2247448713915889E+00;
    6 <~ -8.7004089535290285E-01;
    7 <~ -5.2403354748695763E-01;
    8 <~ 0.0000000000000000E+00;
    9 <~ 5.2403354748695763E-01;
    10 <~ 8.7004089535290285E-01;
    11 <~ 1.2247448713915889E+00;
    12 <~ 1.8357079751751868E+00;
    13 <~ 2.0232301911005157E+00;
    14 <~ 2.9592107790638380E+00;
    15 <~ 3.6677742159463378E+00;
    16 <~ 4.4995993983103881E+00 ].

Definition gk16_w17 : list assign :=
  [ 0 <~ 3.7463469943051758E-08;
    1 <~ -1.4542843387069391E-06;
    2 <~ 1.8723818949278350E-04;
    3 <~ 1.2466519132805918E-02;
    4 <~ 3.4840719346803800E-03;
    5 <~ 1.5718298376652240E-01;
    6 <~ 2.5155825701712934E-02;
    7 <~ 4.5119803602358544E-01;
    8 <~ 4.7310733504965385E-01;
    9 <~ 4.5119803602358544E-01;
    10 <~ 2.5155825701712934E-02;
    11 <~ 1.5718298376652240E-01;
    12 <~ 3.4840719346803800E-03;
    13 <~ 1.2466519132805918E-02;
    14 <~ 1.8723818949278350E-04;
    15 <~ -1.4542843387069391E-06;
    16 <~ 3.7463469943051758E-08 ].

Definition gk16_x19 : list assign :=
  [ 0 <~ -4.4995993983103881E+00;
    1 <~ -3.6677742159463378E+00;
    2 <~ -2.9592107790638380E+00;
    3 <~ -2.2665132620567876E+00;
    4 <~ -2.0232301911005157E+00;
    5 <~ -1.8357079751751868E+00;
    7 <~ -1.2247448713915889E+00;
    8 <~ -8.7004089535290285E-01;
    8 <~ -5.2403354748695763E-01;
    9 <~ 0.0000000000000000E+00;
    10 <~ 5.2403354748695763E-01;
    11 <~ 8.7004089535290285E-01;
    12 <~ 1.2247448713915889E+00;
    13 <~ 1.8357079751751868E+00;
    14 <~ 2.0232301911005157E+00;
    15 <~ 2.2665132620567876E+00;
    16 <~ 2.9592107790638380E+00;
    17 <~ 3.6677742159463378E+00;
    18 <~ 4.4995993983103881E+00 ].

Definition gk16_w19 : list assign :=
  [ 0 <~ 1.5295717705322357E-09;
    1 <~ 1.0802767206624762E-06;
    2 <~ 1.0656589772852267E-04;
    3 <~ 5.1133174390883855E-03;
    4 <~ -1.1232438489069229E-02;
    5 <~ 3.2055243099445879E-02;
    6 <~ 1.1360729895748269E-01;
    7 <~ 1.0838861955003017E-01;
    8 <~ 3.6924643368920851E-01;
    9 <~ 5.3788160700510168E-01;
    10 <~ 3.6924643368920851E-01;
    11 <~ 1.0838861955003017E-01;
    12 <~ 1.1360729895748269E-01;
    13 <~ 3.2055243099445879E-02;
    14 <~ -1.1232438489069229E-02;
    15 <~ 5.1133174390883855E-03;
    16 <~ 1.0656589772852267E-04;
    17 <~ 1.0802767206624762E-06;
    18 <~ 1.5295717705322357E-09 ].

Definition gk16_x31 : list assign :=
  [ 0 <~ -6.3759392709822356E+00;
    1 <~ -5.6432578578857449E+00;
    2 <~ -5.0360899444730940E+00;
    3 <~ -4.4995993983103881E+00;
    4 <~ -3.6677742159463378E+00;
    5 <~ -2.9592107790638380E+00;
    6 <~ -2.5705583765842968E+00;
    7 <~ -2.2665132620567876E+00;
    8 <~ -2.0232301911005157E+00;
    9 <~ -1.8357079751751868E+00;
    10 <~ -1.5794121348467671E+00;
    11 <~ -1.2247448713915889E+00;
    12 <~ -8.7004089535290285E-01;
    13 <~ -5.2403354748695763E-01;
    14 <~ -1.7606414208200893E-01;
    15 <~ 0.0000000000000000E+00;
    16 <~ 1.7606414208200893E-01;
    17 <~ 5.2403354748695763E-01;
    18 <~ 8.7004089535290285E-01;
    19 <~ 1.2247448713915889E+00;
    20 <~ 1.5794121348467671E+00;
    21 <~ 1.8357079751751868E+00;
    22 <~ 2.0232301911005157E+00;
    23 <~ 2.2665132620567876E+00;
    24 <~ 2.5705583765842968E+00;
    25 <~ 2.9592107790638380E+00;
    26 <~ 3.6677742159463378E+00;
    27 <~ 4.4995993983103881E+00;
    28 <~ 5.0360899444730940E+00;
    29 <~ 5.6432578578857449E+00;
    30 <~ 6.3759392709822356E+00 ].

Definition gk16_w31 : list assign :=
  [ 0 <~ 2.2365645607044459E-15;
    1 <~ -2.6304696458548942E-13;
    2 <~ 9.0675288231679823E-12;
    3 <~ 1.4055252024722478E-09;
    4 <~ 1.0889219692128120E-06;
    5 <~ 1.0541662394746661E-04;
    6 <~ 2.6665159778939428E-05;
    7 <~ 4.8385208205502612E-03;
    8 <~ -9.8566270434610019E-03;
    9 <~ 2.9409427580350787E-02;
    10 <~ 3.1210210352682834E-03;
    11 <~ 1.0939325071860877E-01;
    12 <~ 1.1594930984853116E-01;
    13 <~ 3.5393889029580544E-01;
    14 <~ 4.9855761893293160E-02;
    15 <~ 4.5888839636756751E-01;
    16 <~ 4.9855761893293160E-02;
    17 <~ 3.5393889029580544E-01;
    18 <~ 1.1594930984853116E-01;
    19 <~ 1.0939325071860877E-01;
    20 <~ 3.1210210352682834E-03;
    21 <~ 2.9409427580350787E-02;
    22 <~ -9.8566270434610019E-03;
    23 <~ 4.8385208205502612E-03;
    24 <~ 2.6665159778939428E-05;
    25 <~ 1.0541662394746661E-04;
    26 <~ 1.0889219692128120E-06;
    27 <~ 1.4055252024722478E-09;
    28 <~ 9.0675288231679823E-12;
    29 <~ -2.6304696458548942E-13;
    30 <~ 2.2365645607044459E-15 ].

Definition gk16_x33 : list assign :=
  [ 0 <~ -6.3759392709822356E+00;
    1 <~ -5.6432578578857449E+00;
    2 <~ -5.0360899444730940E+00;
    3 <~ -4.4995993983103881E+00;
    4 <~ -4.0292201405043713E+00;
    5 <~ -3.6677742159463378E+00;
    6 <~ -2.9592107790638380E+00;
    7 <~ -2.5705583765842968E+00;
    8 <~ -2.2665132620567876E+00;
    9 <~ -2.0232301911005157E+00;
    10 <~ -1.8357079751751868E+00;
    11 <~ -1.5794121348467671E+00;
    12 <~ -1.2247448713915889E+00;
    13 <~ -8.7004089535290285E-01;
    14 <~ -5.2403354748695763E-01;
    15 <~ -1.7606414208200893E-01;
    16 <~ 0.0000000000000000E+00;
    17 <~ 1.7606414208200893E-01;
    18 <~ 5.2403354748695763E-01;
    19 <~ 8.7004089535290285E-01;
    20 <~ 1.2247448713915889E+00;
    21 <~ 1.5794121348467671E+00;
    22 <~ 1.8357079751751868E+00;
    23 <~ 2.0232301911005157E+00;
    24 <~ 2.2665132620567876E+00;
    25 <~ 2.5705583765842968E+00;
    26 <~ 2.9592107790638380E+00;
    27 <~ 3.6677742159463378E+00;
    28 <~ 4.0292201405043713E+00;
    29 <~ 4.4995993983103881E+00;
    30 <~ 5.0360899444730940E+00;
    31 <~ 5.6432578578857449E+00;
    32 <~ 6.3759392709822356E+00 ].

Definition gk16_w33 : list assign :=
  [ 0 <~ -1.7602932805372496E-15;
    1 <~ 4.7219278666417693E-13;
    2 <~ -3.4281570530349562E-11;
    3 <~ 2.7547825138935901E-09;
    4 <~ -2.3903343382803510E-08;
    5 <~ 1.2245220967158438E-06;
    6 <~ 9.8710009197409173E-05;
    7 <~ 1.4753204901862772E-04;
    8 <~ 3.7580026604304793E-03;
    9 <~ -4.9118576123877555E-03;
    10 <~ 2.0435058359107205E-02;
    11 <~ 1.3032872699027960E-02;
    12 <~ 9.6913444944583621E-02;
    13 <~ 1.3726521191567551E-01;
    14 <~ 3.1208656194697448E-01;
    15 <~ 1.8411696047725790E-01;
    16 <~ 2.4656644932829619E-01;
    17 <~ 1.8411696047725790E-01;
    18 <~ 3.1208656194697448E-01;
    19 <~ 1.3726521191567551E-01;
    20 <~ 9.6913444944583621E-02;
    21 <~ 1.3032872699027960E-02;
    22 <~ 2.0435058359107205E-02;
    23 <~ -4.9118576123877555E-03;
    24 <~ 3.7580026604304793E-03;
    25 <~ 1.4753204901862772E-04;
    26 <~ 9.8710009197409173E-05;
    27 <~ 1.2245220967158438E-06;
    28 <~ -2.3903343382803510E-08;
    29 <~ 2.7547825138935901E-09;
    30 <~ -3.4281570530349562E-11;
    31 <~ 4.7219278666417693E-13;
    32 <~ -1.7602932805372496E-15 ].

Definition gk16_x35 : list assign :=
  [ 0 <~ -6.3759392709822356E+00;
    1 <~ -5.6432578578857449E+00;
    2 <~ -5.0360899444730940E+00;
    3 <~ -4.4995993983103881E+00;
    4 <~ -4.0292201405043713E+00;
    5 <~ -3.6677742159463378E+00;
    6 <~ -3.3491639537131945E+00;
    7 <~ -2.9592107790638380E+00;
    8 <~ -2.5705583765842968E+00;
    9 <~ -2.2665132620567876E+00;
    10 <~ -2.0232301911005157E+00;
    11 <~ -1.8357079751751868E+00;
    12 <~ -1.5794121348467671E+00;
    13 <~ -1.2247448713915889E+00;
    14 <~ -8.7004089535290285E-01;
    15 <~ -5.2403354748695763E-01;
    16 <~ -1.7606414208200893E-01;
    17 <~ 0.0000000000000000E+00;
    18 <~ 1.7606414208200893E-01;
    19 <~ 5.2403354748695763E-01;
    20 <~ 8.7004089535290285E-01;
    21 <~ 1.2247448713915889E+00;
    22 <~ 1.5794121348467671E+00;
    23 <~ 1.8357079751751868E+00;
    24 <~ 2.0232301911005157E+00;
    25 <~ 2.2665132620567876E+00;
    26 <~ 2.5705583765842968E+00;
    27 <~ 2.9592107790638380E+00;
    28 <~ 3.3491639537131945E+00;
    29 <~ 3.6677742159463378E+00;
    30 <~ 4.0292201405043713E+00;
    31 <~ 4.4995993983103881E+00;
    32 <~ 5.0360899444730940E+00;
    33 <~ 5.6432578578857449E+00;
    34 <~ 6.3759392709822356E+00 ].

Definition gk16_w35 : list assign :=
  [ 0 <~ 1.8684014894510604E-18;
    1 <~ 9.6599466278563243E-15;
    2 <~ 5.4896836948499462E-12;
    3 <~ 8.1553721816916897E-10;
    4 <~ 3.7920222392319532E-08;
    5 <~ 4.3737818040926989E-07;
    6 <~ 4.8462799737020461E-06;
    7 <~ 6.3328620805617891E-05;
    8 <~ 4.8785399304443770E-04;
    9 <~ 1.4515580425155904E-03;
    10 <~ 4.0967527720344047E-03;
    11 <~ 5.5928828911469180E-03;
    12 <~ 2.7780508908535097E-02;
    13 <~ 8.0245518147390893E-02;
    14 <~ 1.6371221555735804E-01;
    15 <~ 2.6244871488784277E-01;
    16 <~ 3.3988595585585218E-01;
    17 <~ 9.1262675363737921E-04;
    18 <~ 3.3988595585585218E-01;
    19 <~ 2.6244871488784277E-01;
    20 <~ 1.6371221555735804E-01;
    21 <~ 8.0245518147390893E-02;
    22 <~ 2.7780508908535097E-02;
    23 <~ 5.5928828911469180E-03;
    24 <~ 4.0967527720344047E-03;
    25 <~ 1.4515580425155904E-03;
    26 <~ 4.8785399304443770E-04;
    27 <~ 6.3328620805617891E-05;
    28 <~ 4.8462799737020461E-06;
    29 <~ 4.3737818040926989E-07;
    30 <~ 3.7920222392319532E-08;
    31 <~ 8.1553721816916897E-10;
    32 <~ 5.4896836948499462E-12;
    33 <~ 9.6599466278563243E-15;
    34 <~ 1.8684014894510604E-18 ].

(** Tables of [gk18] (one pair of definitions per branch of its if/elif chain). *)

Definition gk18_x1 : list assign :=
  [ 0 <~ 0.0000000000000000E+00 ].

Definition gk18_w1 : list assign :=
  [ 0 <~ 1.7724538509055159E+00 ].

Definition gk18_x3 : list assign :=
  [ 0 <~ -1.2247448713915889E+00;
    1 <~ 0.0000000000000000E+00;
    2 <~ 1.2247448713915889E+00 ].

Definition gk18_w3 : list assign :=
  [ 0 <~ 2.9540897515091930E-01;
    1 <~ 1.1816359006036772E+00;
    2 <~ 2.9540897515091930E-01 ].

Definition gk18_x9 : list assign :=
  [ 0 <~ -2.9592107790638380E+00;
    1 <~ -2.0232301911005157E+00;
    2 <~ -1.2247448713915889E+00;
    3 <~ -5.2403354748695763E-01;
    4 <~ 0.0000000000000000E+00;
    5 <~ 5.2403354748695763E-01;
    6 <~ 1.2247448713915889E+00;
    7 <~ 2.0232301911005157E+00;
    8 <~ 2.9592107790638380E+00 ].

Definition gk18_w9 : list assign :=
  [ 0 <~ 1.6708826306882348E-04;
    1 <~ 1.4173117873979098E-02;
    2 <~ 1.6811892894767771E-01;
    3 <~ 4.7869428549114124E-01;
    4 <~ 4.5014700975378197E-01;
    5 <~ 4.7869428549114124E-01;
    6 <~ 1.6811892894767771E-01;
    7 <~ 1.4173117873979098E-02;
    8 <~ 1.6708826306882348E-04 ].

Definition gk18_x19 : list assign :=
  [ 0 <~ -4.4995993983103881E+00;
    1 <~ -3.6677742159463378E+00;
    2 <~ -2.9592107790638380E+00;
    3 <~ -2.2665132620567876E+00;
    4 <~ -2.0232301911005157E+00;
    5 <~ -1.8357079751751868E+00;
    6 <~ -1.2247448713915889E+00;
    7 <~ -8.7004089535290285E-01;
    8 <~ -5.2403354748695763E-01;
    9 <~ 0.0000000000000000E+00;
    10 <~ 5.2403354748695763E-01;
    11 <~ 8.7004089535290285E-01;
    12 <~ 1.2247448713915889E+00;
    13 <~ 1.8357079751751868E+00;
    14 <~ 2.0232301911005157E+00;
    15 <~ 2.2665132620567876E+00;
    16 <~ 2.9592107790638380E+00;
    17 <~ 3.6677742159463378E+00;
    18 <~ 4.4995993983103881E+00 ].

Definition gk18_w19 : list assign :=
  [ 0 <~ 1.5295717705322357E-09;
    1 <~ 1.0802767206624762E-06;
    2 <~ 1.0656589772852267E-04;
    3 <~ 5.1133174390883855E-03;
    4 <~ -1.1232438489069229E-02;
    5 <~ 3.2055243099445879E-02;
    6 <~ 1.1360729895748269E-01;
    7 <~ 1.0838861955003017E-01;
    8 <~ 3.6924643368920851E-01;
    9 <~ 5.3788160700510168E-01;
    10 <~ 3.6924643368920851E-01;
    11 <~ 1.0838861955003017E-01;
    12 <~ 1.1360729895748269E-01;
    13 <~ 3.2055243099445879E-02;
    14 <~ -1.1232438489069229E-02;
    15 <~ 5.1133174390883855E-03;
    16 <~ 1.0656589772852267E-04;
    17 <~ 1.0802767206624762E-06;
    18 <~ 1.5295717705322357E-09 ].

Definition gk18_x37 : list assign :=
  [ 0 <~ -6.853200069757519;
    1 <~ -6.124527854622158;
    2 <~ -5.521865209868350;
    3 <~ -4.986551454150765;
    4 <~ -4.499599398310388;
    5 <~ -4.057956316089741;
    6 <~ -3.667774215946338;
    7 <~ -3.315584617593290;
    8 <~ -2.959210779063838;
    9 <~ -2.597288631188366;
    10 <~ -2.266513262056788;
    11 <~ -2.023230191100516;
    12 <~ -1.835707975175187;
    13 <~ -1.561553427651873;
    14 <~ -1.224744871391589;
    15 <~ -0.870040895352903;
    16 <~ -0.524033547486958;
    17 <~ -0.214618180588171;
    18 <~ 0.000000000000000;
    19 <~ 0.214618180588171;
    20 <~ 0.524033547486958;
    21 <~ 0.870040895352903;
    22 <~ 1.224744871391589;
    23 <~ 1.561553427651873;
    24 <~ 1.835707975175187;
    25 <~ 2.023230191100516;
    26 <~ 2.266513262056788;
    27 <~ 2.597288631188366;
    28 <~ 2.959210779063838;
    29 <~ 3.315584617593290;
    30 <~ 3.667774215946338;
    31 <~ 4.057956316089741;
    32 <~ 4.499599398310388;
    33 <~ 4.986551454150765;
    34 <~ 5.521865209868350;
    35 <~ 6.124527854622158;
    36 <~ 6.853200069757519 ].

Definition gk18_w37 : list assign :=
  [ 0 <~ 0.19030350940130498E-20;
    1 <~ 0.187781893143728947E-16;
    2 <~ 0.182242751549129356E-13;
    3 <~ 0.45661763676186859E-11;
    4 <~ 0.422525843963111041E-09;
    5 <~ 0.16595448809389819E-07;
    6 <~ 0.295907520230744049E-06;
    7 <~ 0.330975870979203419E-05;
    8 <~ 0.32265185983739747E-04;
    9 <~ 0.234940366465975222E-03;
    10 <~ 0.985827582996483824E-03;
    11 <~ 0.176802225818295443E-02;
    12 <~ 0.43334988122723492E-02;
    13 <~ 0.15513109874859354E-01;
    14 <~ 0.442116442189845444E-01;
    15 <~ 0.937208280655245902E-01;
    16 <~ 0.143099302896833389E+00;
    17 <~ 0.147655710402686249E+00;
    18 <~ 0.968824552928425499E-01;
    19 <~ 0.147655710402686249E+00;
    20 <~ 0.143099302896833389E+00;
    21 <~ 0.937208280655245902E-01;
    22 <~ 0.442116442189845444E-01;
    23 <~ 0.15513109874859354E-01;
    24 <~ 0.43334988122723492E-02;
    25 <~ 0.176802225818295443E-02;
    26 <~ 0.985827582996483824E-03;
    27 <~ 0.234940366465975222E-03;
    28 <~ 0.32265185983739747E-04;
    29 <~ 0.330975870979203419E-05;
    30 <~ 0.295907520230744049E-06;
    31 <~ 0.16595448809389819E-07;
    32 <~ 0.422525843963111041E-09;
    33 <~ 0.45661763676186859E-11;
    34 <~ 0.182242751549129356E-13;
    35 <~ 0.187781893143728947E-16;
    36 <~ 0.19030350940130498E-20 ].

(** Tables of [gk22] (one pair of definitions per branch of its if/elif chain). *)

Definition gk22_x1 : list assign :=
  [ 0 <~ 0.0000000000000000 ].

Definition gk22_w1 : list assign :=
  [ 0 <~ 1.7724538509055159E+00 ].

Definition gk22_x3 : list assign :=
  [ 0 <~ -1.2247448713915889;
    1 <~ 0.0000000000000000;
    2 <~ 1.2247448713915889 ].

Definition gk22_w3 : list assign :=
  [ 0 <~ 2.9540897515091930E-01;
    1 <~ 1.1816359006036772E+00;
    2 <~ 2.9540897515091930E-01 ].

Definition gk22_x9 : list assign :=
  [ 0 <~ -2.9592107790638380;
    1 <~ -2.0232301911005157;
    2 <~ -1.2247448713915889;
    3 <~ -0.52403354748695763;
    4 <~ 0.0000000000000000;
    5 <~ 0.52403354748695763;
    6 <~ 1.2247448713915889;
    7 <~ 2.0232301911005157;
    8 <~ 2.9592107790638380 ].

Definition gk22_w9 : list assign :=
  [ 0 <~ 1.6708826306882348E-04;
    1 <~ 1.4173117873979098E-02;
    2 <~ 1.6811892894767771E-01;
    3 <~ 4.7869428549114124E-01;
    4 <~ 4.5014700975378197E-01;
    5 <~ 4.7869428549114124E-01;
    6 <~ 1.6811892894767771E-01;
    7 <~ 1.4173117873979098E-02;
    8 <~ 1.6708826306882348E-04 ].

Definition gk22_x19 : list assign :=
  [ 0 <~ -4.4995993983103881;
    1 <~ -3.6677742159463378;
    2 <~ -2.9592107790638380;
    3 <~ -2.2665132620567876;
    4 <~ -2.0232301911005157;
    5 <~ -1.8357079751751868;
    6 <~ -1.2247448713915889;
    7 <~ -0.87004089535290285;
    8 <~ -0.52403354748695763;
    9 <~ 0.0000000000000000;
    10 <~ 0.52403354748695763;
    11 <~ 0.87004089535290285;
    12 <~ 1.2247448713915889;
    13 <~ 1.8357079751751868;
    14 <~ 2.0232301911005157;
    15 <~ 2.2665132620567876;
    16 <~ 2.9592107790638380;
    17 <~ 3.6677742159463378;
    18 <~ 4.4995993983103881 ].

Definition gk22_w19 : list assign :=
  [ 0 <~ 1.5295717705322357E-09;
    1 <~ 1.0802767206624762E-06;
    2 <~ 1.0656589772852267E-04;
    3 <~ 5.1133174390883855E-03;
    4 <~ -1.1232438489069229E-02;
    5 <~ 3.2055243099445879E-02;
    6 <~ 1.1360729895748269E-01;
    7 <~ 1.0838861955003017E-01;
    8 <~ 3.6924643368920851E-01;
    9 <~ 5.3788160700510168E-01;
    10 <~ 3.6924643368920851E-01;
    11 <~ 1.0838861955003017E-01;
    12 <~ 1.1360729895748269E-01;
    13 <~ 3.2055243099445879E-02;
    14 <~ -1.1232438489069229E-02;
    15 <~ 5.1133174390883855E-03;
    16 <~ 1.0656589772852267E-04;
    17 <~ 1.0802767206624762E-06;
    18 <~ 1.5295717705322357E-09 ].

Definition gk22_x41 : list assign :=
  [ 0 <~ -7.251792998192644;
    1 <~ -6.547083258397540;
    2 <~ -5.961461043404500;
    3 <~ -5.437443360177798;
    4 <~ -4.953574342912980;
    5 <~ -4.4995993983103881;
    6 <~ -4.070919267883068;
    7 <~ -3.6677742159463378;
    8 <~ -3.296114596212218;
    9 <~ -2.9592107790638380;
    10 <~ -2.630415236459871;
    11 <~ -2.2665132620567876;
    12 <~ -2.043834754429505;
    13 <~ -2.0232301911005157;
    14 <~ -1.8357079751751868;
    15 <~ -1.585873011819188;
    16 <~ -1.2247448713915889;
    17 <~ -0.87004089535290285;
    18 <~ -0.52403354748695763;
    19 <~ -0.195324784415805;
    20 <~ 0.0000000000000000;
    21 <~ 0.195324784415805;
    22 <~ 0.52403354748695763;
    23 <~ 0.87004089535290285;
    24 <~ 1.2247448713915889;
    25 <~ 1.585873011819188;
    26 <~ 1.8357079751751868;
    27 <~ 2.0232301911005157;
    28 <~ 2.043834754429505;
    29 <~ 2.2665132620567876;
    30 <~ 2.630415236459871;
    31 <~ 2.9592107790638380;
    32 <~ 3.296114596212218;
    33 <~ 3.6677742159463378;
    34 <~ 4.070919267883068;
    35 <~ 4.4995993983103881;
    36 <~ 4.953574342912980;
    37 <~ 5.437443360177798;
    38 <~ 5.961461043404500;
    39 <~ 6.547083258397540;
    40 <~ 7.251792998192644 ].

Definition gk22_w41 : list assign :=
  [ 0 <~ 0.664195893812757801E-23;
    1 <~ 0.860427172512207236E-19;
    2 <~ 0.1140700785308509E-15;
    3 <~ 0.408820161202505983E-13;
    4 <~ 0.581803393170320419E-11;
    5 <~ 0.400784141604834759E-09;
    6 <~ 0.149158210417831408E-07;
    7 <~ 0.315372265852264871E-06;
    8 <~ 0.381182791749177506E-05;
    9 <~ 0.288976780274478689E-04;
    10 <~ 0.189010909805097887E-03;
    11 <~ 0.140697424065246825E-02;
    12 <~ -0.144528422206988237E-01;
    13 <~ 0.178852543033699732E-01;
    14 <~ 0.705471110122962612E-03;
    15 <~ 0.165445526705860772E-01;
    16 <~ 0.45109010335859128E-01;
    17 <~ 0.928338228510111845E-01;
    18 <~ 0.145966293895926429E+00;
    19 <~ 0.165639740400529554E+00;
    20 <~ 0.562793426043218877E-01;
    21 <~ 0.165639740400529554E+00;
    22 <~ 0.145966293895926429E+00;
    23 <~ 0.928338228510111845E-01;
    24 <~ 0.45109010335859128E-01;
    25 <~ 0.165445526705860772E-01;
    26 <~ 0.705471110122962612E-03;
    27 <~ 0.178852543033699732E-01;
    28 <~ -0.144528422206988237E-01;
    29 <~ 0.140697424065246825E-02;
    30 <~ 0.189010909805097887E-03;
    31 <~ 0.288976780274478689E-04;
    32 <~ 0.381182791749177506E-05;
    33 <~ 0.315372265852264871E-06;
    34 <~ 0.149158210417831408E-07;
    35 <~ 0.400784141604834759E-09;
    36 <~ 0.581803393170320419E-11;
    37 <~ 0.408820161202505983E-13;
    38 <~ 0.1140700785308509E-15;
    39 <~ 0.860427172512207236E-19;
    40 <~ 0.664195893812757801E-23 ].

(** Tables of [gk24] (one pair of definitions per branch of its if/elif chain). *)

Definition gk24_x1 : list assign :=
  [ 0 <~ 0.0000000000000000 ].

Definition gk24_w1 : list assign :=
  [ 0 <~ 1.7724538509055159E+00 ].

Definition gk24_x3 : list assign :=
  [ 0 <~ -1.2247448713915889;
    1 <~ 0.0000000000000000;
    2 <~ 1.2247448713915889 ].

Definition gk24_w3 : list assign :=
  [ 0 <~ 2.9540897515091930E-01;
    1 <~ 1.1816359006036772E+00;
    2 <~ 2.9540897515091930E-01 ].

Definition gk24_x9 : list assign :=
  [ 0 <~ -2.9592107790638380;
    1 <~ -2.0232301911005157;
    2 <~ -1.2247448713915889;
    3 <~ -0.52403354748695763;
    4 <~ 0.0000000000000000;
    5 <~ 0.52403354748695763;
    6 <~ 1.2247448713915889;
    7 <~ 2.0232301911005157;
    8 <~ 2.9592107790638380 ].

Definition gk24_w9 : list assign :=
  [ 0 <~ 1.6708826306882348E-04;
    1 <~ 1.4173117873979098E-02;
    2 <~ 1.6811892894767771E-01;
    3 <~ 4.7869428549114124E-01;
    4 <~ 4.5014700975378197E-01;
    5 <~ 4.7869428549114124E-01;
    6 <~ 1.6811892894767771E-01;
    7 <~ 1.4173117873979098E-02;
    8 <~ 1.6708826306882348E-04 ].

Definition gk24_x19 : list assign :=
  [ 0 <~ -4.4995993983103881;
    1 <~ -3.6677742159463378;
    2 <~ -2.9592107790638380;
    3 <~ -2.2665132620567876;
    4 <~ -2.0232301911005157;
    5 <~ -1.8357079751751868;
    6 <~ -1.2247448713915889;
    7 <~ -0.87004089535290285;
    8 <~ -0.52403354748695763;
    9 <~ 0.0000000000000000;
    10 <~ 0.52403354748695763;
    11 <~ 0.87004089535290285;
    12 <~ 1.2247448713915889;
    13 <~ 1.8357079751751868;
    14 <~ 2.0232301911005157;
    15 <~ 2.2665132620567876;
    16 <~ 2.9592107790638380;
    17 <~ 3.6677742159463378;
    18 <~ 4.4995993983103881 ].

Definition gk24_w19 : list assign :=
  [ 0 <~ 1.5295717705322357E-09;
    1 <~ 1.0802767206624762E-06;
    2 <~ 1.0656589772852267E-04;
    3 <~ 5.1133174390883855E-03;
    4 <~ -1.1232438489069229E-02;
    5 <~ 3.2055243099445879E-02;
    6 <~ 1.1360729895748269E-01;
    7 <~ 1.0838861955003017E-01;
    8 <~ 3.6924643368920851E-01;
    9 <~ 5.3788160700510168E-01;
    10 <~ 3.6924643368920851E-01;
    11 <~ 1.0838861955003017E-01;
    12 <~ 1.1360729895748269E-01;
    13 <~ 3.2055243099445879E-02;
    14 <~ -1.1232438489069229E-02;
    15 <~ 5.1133174390883855E-03;
    16 <~ 1.0656589772852267E-04;
    17 <~ 1.0802767206624762E-06;
    18 <~ 1.5295717705322357E-09 ].

Definition gk24_x43 : list assign :=
  [ 0 <~ -10.167574994881873;
    1 <~ -7.231746029072501;
    2 <~ -6.535398426382995;
    3 <~ -5.954781975039809;
    4 <~ -5.434053000365068;
    5 <~ -4.952329763008589;
    6 <~ -4.4995993983103881;
    7 <~ -4.071335874253583;
    8 <~ -3.6677742159463378;
    9 <~ -3.295265921534226;
    10 <~ -2.9592107790638380;
    11 <~ -2.633356763661946;
    12 <~ -2.2665132620567876;
    13 <~ -2.089340389294661;
    14 <~ -2.0232301911005157;
    15 <~ -1.8357079751751868;
    16 <~ -1.583643465293944;
    17 <~ -1.2247448713915889;
    18 <~ -0.87004089535290285;
    19 <~ -0.52403354748695763;
    20 <~ -0.196029453662011;
    21 <~ 0.0000000000000000;
    22 <~ 0.196029453662011;
    23 <~ 0.52403354748695763;
    24 <~ 0.87004089535290285;
    25 <~ 1.2247448713915889;
    26 <~ 1.583643465293944;
    27 <~ 1.8357079751751868;
    28 <~ 2.0232301911005157;
    29 <~ 2.089340389294661;
    30 <~ 2.2665132620567876;
    31 <~ 2.633356763661946;
    32 <~ 2.9592107790638380;
    33 <~ 3.295265921534226;
    34 <~ 3.6677742159463378;
    35 <~ 4.071335874253583;
    36 <~ 4.4995993983103881;
    37 <~ 4.952329763008589;
    38 <~ 5.434053000365068;
    39 <~ 5.954781975039809;
    40 <~ 6.535398426382995;
    41 <~ 7.231746029072501;
    42 <~ 10.167574994881873 ].

Definition gk24_w43 : list assign :=
  [ 0 <~ 0.546191947478318097E-37;
    1 <~ 0.87544909871323873E-23;
    2 <~ 0.992619971560149097E-19;
    3 <~ 0.122619614947864357E-15;
    4 <~ 0.421921851448196032E-13;
    5 <~ 0.586915885251734856E-11;
    6 <~ 0.400030575425776948E-09;
    7 <~ 0.148653643571796457E-07;
    8 <~ 0.316018363221289247E-06;
    9 <~ 0.383880761947398577E-05;
    10 <~ 0.286802318064777813E-04;
    11 <~ 0.184789465688357423E-03;
    12 <~ 0.150909333211638847E-02;
    13 <~ -0.38799558623877157E-02;
    14 <~ 0.67354758901013295E-02;
    15 <~ 0.139966252291568061E-02;
    16 <~ 0.163616873493832402E-01;
    17 <~ 0.450612329041864976E-01;
    18 <~ 0.928711584442575456E-01;
    19 <~ 0.145863292632147353E+00;
    20 <~ 0.164880913687436689E+00;
    21 <~ 0.579595986101181095E-01;
    22 <~ 0.164880913687436689E+00;
    23 <~ 0.145863292632147353E+00;
    24 <~ 0.928711584442575456E-01;
    25 <~ 0.450612329041864976E-01;
    26 <~ 0.163616873493832402E-01;
    27 <~ 0.139966252291568061E-02;
    28 <~ 0.67354758901013295E-02;
    29 <~ -0.38799558623877157E-02;
    30 <~ 0.150909333211638847E-02;
    31 <~ 0.184789465688357423E-03;
    32 <~ 0.286802318064777813E-04;
    33 <~ 0.383880761947398577E-05;
    34 <~ 0.316018363221289247E-06;
    35 <~ 0.148653643571796457E-07;
    36 <~ 0.400030575425776948E-09;
    37 <~ 0.586915885251734856E-11;
    38 <~ 0.421921851448196032E-13;
    39 <~ 0.122619614947864357E-15;
    40 <~ 0.992619971560149097E-19;
    41 <~ 0.87544909871323873E-23;
    42 <~ 0.546191947478318097E-37 ].

(** ** The rule-table functions *)

(** The level lists [n = [...][n]] of the four functions. *)
Definition gk16_levels : list Z := [1; 3; 7; 9; 17; 19; 31; 33; 35]%Z.
Definition gk18_levels : list Z := [1; 3; 9; 19; 37]%Z.
Definition gk22_levels : list Z := [1; 3; 9; 19; 41]%Z.
Definition gk24_levels : list Z := [1; 3; 9; 19; 43]%Z.

(** An [if n==c1 : ... elif n==c2 : ...] chain: its tests in source order,
    each with the two blocks of assignments of its body. *)
Definition chain : Type := list (Z * (list assign * list assign)).

Definition gk16_chain : chain :=
  [ (1, (gk16_x1, gk16_w1)); (3, (gk16_x3, gk16_w3)); (7, (gk16_x7, gk16_w7));
    (9, (gk16_x9, gk16_w9)); (17, (gk16_x17, gk16_w17));
    (19, (gk16_x19, gk16_w19)); (31, (gk16_x31, gk16_w31));
    (33, (gk16_x33, gk16_w33)); (35, (gk16_x35, gk16_w35)) ]%Z.

Definition gk18_chain : chain :=
  [ (1, (gk18_x1, gk18_w1)); (3, (gk18_x3, gk18_w3)); (9, (gk18_x9, gk18_w9));
    (19, (gk18_x19, gk18_w19)); (37, (gk18_x37, gk18_w37)) ]%Z.

Definition gk22_chain : chain :=
  [ (1, (gk22_x1, gk22_w1)); (3, (gk22_x3, gk22_w3)); (9, (gk22_x9, gk22_w9));
    (19, (gk22_x19, gk22_w19)); (41, (gk22_x41, gk22_w41)) ]%Z.

Definition gk24_chain : chain :=
  [ (1, (gk24_x1, gk24_w1)); (3, (gk24_x3, gk24_w3)); (9, (gk24_x9, gk24_w9));
    (19, (gk24_x19, gk24_w19)); (43, (gk24_x43, gk24_w43)) ]%Z.

(** Running the chain: the body of the first test that holds; the chains
    have no [else], so nothing runs when no test holds. *)
Fixpoint select (c : chain) (n : Z) : option (list assign * list assign) :=
  match c with
  | [] => None
  | (k, body) :: rest => if (n =? k)%Z then Some body else select rest n
  end.

(** The body shared, statement for statement, by the four functions:
<<
    n = levels[n]
    x = np.zeros(n); w = np.zeros(n)
    if n==... : x[..] = ..; w[..] = ..   elif ...
    w /= np.sum(w)
    x *= np.sqrt(2)
    return x,w
>> *)
Definition rule_body (levels : list Z) (c : chain) (n : pyobj)
  : result (array * array) :=
  n <- getitem levels n ;;
  let x := zeros n in
  let w := zeros n in
  '(x, w) <- match select c n with
             | Some (bx, bw) => x <- fill x bx ;; w <- fill w bw ;; Ok (x, w)
             | None => Ok (x, w)
             end ;;
  w <- divide_by_sum w ;;
  let x := scale_by_sqrt2 x in
  Ok (x, w).

Definition gk16 : pyobj -> result (array * array) := rule_body gk16_levels gk16_chain.
Definition gk18 : pyobj -> result (array * array) := rule_body gk18_levels gk18_chain.
Definition gk22 : pyobj -> result (array * array) := rule_body gk22_levels gk22_chain.
Definition gk24 : pyobj -> result (array * array) := rule_body gk24_levels gk24_chain.

(** ** The multivariate combinator *)

Module utils.

(** Modelled from the spec: [combine] is imported from [chaospy/utils.py],
    which is not among the source files.  The specification asks for the
    Cartesian product of the given sequences, every tuple exactly once, in
    lexicographic order: one row per tuple, the first sequence varying
    slowest. *)
Fixpoint combine {A : Type} (X : list (list A)) : list (list A) :=
  match X with
  | [] => [[]]
  | l :: rest => flat_map (fun a => map (cons a) (combine rest)) l
  end.

End utils.

(** A one-dimensional distribution, as far as [gk] uses it: its inverse
    cumulative distribution function [dist.inv]. *)
Record marginal : Type := { inv : Q -> Q }.

(** A chaospy distribution: [len(dist)] is the number of its marginals,
    [dist[i]] and [for d in dist] give them one by one, and each of them has
    length one. *)
Definition Dist : Type := list marginal.

(** [m.T] for a two-dimensional array [m] with [cols] columns, given by its
    rows. *)
Definition transpose (cols : nat) (m : list array) : list array :=
  map (fun d => map (fun row => nth d row 0) m) (seq 0 cols).

Section Combinator.

(** [scipy.special.ndtr], the standard normal distribution function. *)
Variable ndtr : Q -> Q.

(** [eval("gk"+str(rule))]: the names [gk16], [gk18], [gk22] and [gk24] are
    bound in the module; any other [gk<digits>] is an unbound name, and for a
    negative [rule] the string reads [gk-<digits>], a function minus an
    integer. *)
Definition eval_gk (rule : Z) : result (pyobj -> result (array * array)) :=
  if (rule =? 16)%Z then Ok gk16
  else if (rule =? 18)%Z then Ok gk18
  else if (rule =? 22)%Z then Ok gk22
  else if (rule =? 24)%Z then Ok gk24
  else if (rule <? 0)%Z then Raise TypeError
  else Raise NameError.

(** The statements of [gk] after its [if len(dist) > 1] block:
<<
    foo = eval("gk"+str(rule))
    x,w = foo(order)
    x = dist.inv(ndtr(x))
    x = x.reshape(1, x.size)
    return x, w
>>
    They run for a distribution of length one; an empty sequence would have
    no [inv]. *)
Definition gk_single (order : pyobj) (dist : Dist) (rule : Z)
  : result (list array * array) :=
  foo <- eval_gk rule ;;
  '(x, w) <- foo order ;;
  match dist with
  | [d] => let x := map (fun v => inv d (ndtr v)) x in Ok ([x], w)
  | _ => Raise AttributeError
  end.

(** [gk(order, dist, rule)].  The recursive calls of the first block receive
    one marginal each, whose length is one, so each of them runs
    [gk_single]. *)
Definition gk (order : pyobj) (dist : Dist) (rule : Z)
  : result (list array * array) :=
  if (1 <? length dist)%nat then
    xw <- match order with
          | PyInt _ => comprehension (fun d => gk_single order [d] rule) dist
          | PySeq l =>
              comprehension
                (fun i =>
                   o <- getitem l (PyInt (Z.of_nat i)) ;;
                   match nth_error dist i with
                   | Some d => gk_single (PyInt o) [d] rule
                   | None => Raise IndexError
                   end)
                (seq 0 (length dist))
          end ;;
    let x := map (fun r => hd [] (fst r)) xw in
    let x := transpose (length x) (utils.combine x) in
    let w := map snd xw in
    let w := map np_prod (utils.combine w) in
    Ok (x, w)
  else gk_single order dist rule.

End Combinator.

(** ** Rule families *)

Inductive family : Type := GK16 | GK18 | GK22 | GK24.

Definition families : list family := [GK16; GK18; GK22; GK24].

(** The value of [rule] that selects a family. *)
Definition rule_of (f : family) : Z :=
  match f with GK16 => 16 | GK18 => 18 | GK22 => 22 | GK24 => 24 end%Z.

Definition levels (f : family) : list Z :=
  match f with
  | GK16 => gk16_levels | GK18 => gk18_levels
  | GK22 => gk22_levels | GK24 => gk24_levels
  end.

Definition chain_of (f : family) : chain :=
  match f with
  | GK16 => gk16_chain | GK18 => gk18_chain
  | GK22 => gk22_chain | GK24 => gk24_chain
  end.

Definition rule_fn (f : family) : pyobj -> result (array * array) :=
  match f with GK16 => gk16 | GK18 => gk18 | GK22 => gk22 | GK24 => gk24 end.

(** * Properties *)

(** ** Arithmetic of arrays *)

#[local] Arguments Qred : simpl never.
#[local] Arguments Qplus : simpl never.
#[local] Arguments Qmult : simpl never.
#[local] Arguments Qdiv : simpl never.
#[local] Arguments Qinv : simpl never.
#[local] Arguments Qopp : simpl never.
#[local] Arguments Qminus : simpl never.
#[local] Arguments np_sum : simpl never.
#[local] Arguments np_prod : simpl never.

Lemma np_sqrt2_nearest :
  let m := 6369051672525773%Z in
  np_sqrt2 = (m # 2 ^ 52) /\
  ((2 * m - 1) ^ 2 < 2 * (2 * 2 ^ 52) ^ 2 < (2 * m + 1) ^ 2)%Z.
Proof. cbv zeta. split; [reflexivity | split; reflexivity]. Qed.

Lemma np_sum_nil : np_sum [] = 0.
Proof. reflexivity. Qed.

Lemma np_sum_cons (v : Q) (a : array) : np_sum (v :: a) == v + np_sum a.
Proof. unfold np_sum; cbn [fold_right]. apply Qred_correct. Qed.

Lemma np_prod_cons (v : Q) (a : array) : np_prod (v :: a) == v * np_prod a.
Proof. unfold np_prod; cbn [fold_right]. apply Qred_correct. Qed.

Lemma np_sum_app (a b : array) : np_sum (a ++ b) == np_sum a + np_sum b.
Proof.
  induction a as [|v a IH]; simpl.
  - rewrite ?np_sum_nil. ring.
  - rewrite !np_sum_cons, IH. ring.
Qed.

(** The sum of an array scaled by a constant. *)
Lemma np_sum_map_mult (c : Q) (f : Q -> Q) (a : array) :
  (forall v, f v == c * v) -> np_sum (map f a) == c * np_sum a.
Proof.
  intros Hf. induction a as [|v a IH]; simpl.
  - rewrite ?np_sum_nil. ring.
  - rewrite !np_sum_cons, IH, Hf. ring.
Qed.

(** What [w /= np.sum(w)] achieves: whenever the division is defined, the
    quotients sum to one. *)
Lemma divide_by_sum_unit (w w' : array) :
  divide_by_sum w = Ok w' -> np_sum w' == 1.
Proof.
  unfold divide_by_sum. destruct (Qeq_bool (np_sum w) 0) eqn:E; [discriminate|].
  intros H; injection H as <-.
  apply Qeq_bool_neq in E.
  rewrite (np_sum_map_mult (/ np_sum w)).
  - field. exact E.
  - intros v. rewrite Qred_correct. unfold Qdiv. ring.
Qed.

Lemma divide_by_sum_length (w w' : array) :
  divide_by_sum w = Ok w' -> length w' = length w.
Proof.
  unfold divide_by_sum. destruct (Qeq_bool _ _); [discriminate|].
  intros H; injection H as <-. apply length_map.
Qed.

(** An array of zeros sums to zero: no unit-sum array is the placeholder
    [np.zeros] made. *)
Lemma np_sum_zeros (n : Z) : np_sum (zeros n) == 0.
Proof.
  unfold zeros. induction (Z.to_nat n) as [|k IH]; simpl.
  - reflexivity.
  - rewrite np_sum_cons, IH. ring.
Qed.

Lemma setitem_length (a a' : array) (i : nat) (v : Q) :
  setitem a i v = Ok a' -> length a' = length a.
Proof.
  revert a' i. induction a as [|h t IH]; intros a' [|j] H; simpl in H;
    try discriminate.
  - injection H as <-. reflexivity.
  - destruct (setitem t j v) as [t'| |] eqn:E; simpl in H; try discriminate.
    injection H as <-. simpl. f_equal. eapply IH; eauto.
Qed.

Lemma fill_length (block : list assign) (a a' : array) :
  fill a block = Ok a' -> length a' = length a.
Proof.
  revert a. induction block as [|[i v] rest IH]; intros a H; simpl in H.
  - injection H as <-. reflexivity.
  - destruct (setitem a i v) as [a1| |] eqn:E; simpl in H; try discriminate.
    rewrite (IH _ H). eapply setitem_length; eauto.
Qed.

Lemma zeros_length (n : Z) : length (zeros n) = Z.to_nat n.
Proof. apply repeat_length. Qed.

(** ** Level lookup *)

(** The supported levels of a family: the indices [0 .. K-1] of its level
    list. *)
Definition valid_level (f : family) (n : Z) : Prop :=
  (0 <= n < Z.of_nat (length (levels f)))%Z.

Definition level_range (f : family) : list Z :=
  map Z.of_nat (seq 0 (length (levels f))).

Lemma valid_level_in_range (f : family) (n : Z) :
  valid_level f n -> In n (level_range f).
Proof.
  intros [H0 H1]. unfold level_range. apply in_map_iff.
  exists (Z.to_nat n). split; [lia|]. apply in_seq. lia.
Qed.

Lemma getitem_nonneg {A : Type} (l : list A) (n : Z) :
  (0 <= n < Z.of_nat (length l))%Z ->
  exists a, nth_error l (Z.to_nat n) = Some a /\ getitem l (PyInt n) = Ok a.
Proof.
  intros H. unfold getitem.
  destruct (n <? 0)%Z eqn:E; [lia|].
  replace ((0 <=? n)%Z && (n <? Z.of_nat (length l))%Z) with true
    by (symmetry; apply andb_true_iff; split; lia).
  destruct (nth_error l (Z.to_nat n)) as [a|] eqn:N.
  - exists a. split; reflexivity.
  - apply nth_error_None in N. lia.
Qed.

(** Python's negative indices: [l[n]] is [l[n + len(l)]] for [-len <= n < 0]. *)
Lemma getitem_negative {A : Type} (l : list A) (n : Z) :
  (- Z.of_nat (length l) <= n < 0)%Z ->
  getitem l (PyInt n) = getitem l (PyInt (n + Z.of_nat (length l))).
Proof.
  intros H. unfold getitem.
  destruct (n <? 0)%Z eqn:E; [|lia].
  destruct (n + Z.of_nat (length l) <? 0)%Z eqn:E'; [lia|]. reflexivity.
Qed.

Lemma getitem_out_of_range {A : Type} (l : list A) (n : Z) :
  (n < - Z.of_nat (length l) \/ Z.of_nat (length l) <= n)%Z ->
  getitem l (PyInt n) = Raise IndexError.
Proof.
  intros H. unfold getitem.
  destruct (n <? 0)%Z eqn:E.
  - replace ((0 <=? n + Z.of_nat (length l))%Z
             && (n + Z.of_nat (length l) <? Z.of_nat (length l))%Z) with false;
      [reflexivity|].
    symmetry. apply andb_false_iff. left. lia.
  - replace ((0 <=? n)%Z && (n <? Z.of_nat (length l))%Z) with false;
      [reflexivity|].
    symmetry. apply andb_false_iff. right. lia.
Qed.

Lemma getitem_Ok_In {A : Type} (l : list A) (k : pyobj) (a : A) :
  getitem l k = Ok a -> In a l.
Proof.
  unfold getitem. destruct k as [n|s]; [|discriminate].
  destruct (_ && _); [|discriminate].
  destruct (nth_error l _) as [b|] eqn:N; [|discriminate].
  intros H; injection H as <-. eapply nth_error_In; eauto.
Qed.

(** ** The one-dimensional rules *)

(** The statements of a rule function that follow [n = levels[n]]. *)
Definition after_lookup (c : chain) (n : Z) : result (array * array) :=
  let x := zeros n in
  let w := zeros n in
  '(x, w) <- match select c n with
             | Some (bx, bw) => x <- fill x bx ;; w <- fill w bw ;; Ok (x, w)
             | None => Ok (x, w)
             end ;;
  w <- divide_by_sum w ;;
  let x := scale_by_sqrt2 x in
  Ok (x, w).

Lemma rule_body_lookup (lv : list Z) (c : chain) (k : pyobj) :
  rule_body lv c k = (n <- getitem lv k ;; after_lookup c n).
Proof. reflexivity. Qed.

Lemma rule_fn_body (f : family) : rule_fn f = rule_body (levels f) (chain_of f).
Proof. destruct f; reflexivity. Qed.

Definition is_ok {A : Type} (r : result A) : bool :=
  match r with Ok _ => true | _ => false end.

(** The rule of a family at a level (the empty rule where the function
    does not return one). *)
Definition rule_at (f : family) (n : Z) : array * array :=
  match rule_fn f (PyInt n) with
  | Ok r => r
  | _ => ([], [])
  end.

Lemma is_ok_rule_at (f : family) (n : Z) :
  is_ok (rule_fn f (PyInt n)) = true -> rule_fn f (PyInt n) = Ok (rule_at f n).
Proof. unfold rule_at. destruct (rule_fn f (PyInt n)); simpl; congruence. Qed.

(** Every supported level of every family has a rule, with as many abscissas
    and weights as its order says. *)
Definition rule_check (f : family) (n : Z) : bool :=
  match rule_fn f (PyInt n), getitem (levels f) (PyInt n) with
  | Ok (x, w), Ok o =>
      (Z.of_nat (length x) =? o)%Z && (Z.of_nat (length w) =? o)%Z
      && (0 <? o)%Z
  | _, _ => false
  end.

Lemma rule_check_all :
  forallb (fun f => forallb (rule_check f) (level_range f)) families = true.
Proof. vm_compute. reflexivity. Qed.

Lemma in_families (f : family) : In f families.
Proof. destruct f; simpl; auto. Qed.

Lemma rule_check_valid (f : family) (n : Z) :
  valid_level f n -> rule_check f n = true.
Proof.
  intros H. apply valid_level_in_range in H.
  pose proof rule_check_all as C.
  rewrite forallb_forall in C. specialize (C f (in_families f)).
  rewrite forallb_forall in C. exact (C n H).
Qed.

Lemma rule_fn_valid (f : family) (n : Z) :
  valid_level f n -> rule_fn f (PyInt n) = Ok (rule_at f n).
Proof.
  intros H. apply is_ok_rule_at. apply rule_check_valid in H.
  unfold rule_check in H. destruct (rule_fn f (PyInt n)); simpl; congruence.
Qed.

Lemma rule_at_nonempty (f : family) (n : Z) :
  valid_level f n ->
  length (fst (rule_at f n)) = length (snd (rule_at f n)) /\
  (0 < length (fst (rule_at f n)))%nat.
Proof.
  intros H. pose proof (rule_check_valid f n H) as C.
  unfold rule_check in C. rewrite (rule_fn_valid f n H) in C.
  destruct (rule_at f n) as [x w]. destruct (getitem _ _) as [o| |];
    try discriminate.
  apply andb_true_iff in C as [C C3]. apply andb_true_iff in C as [C1 C2].
  simpl. lia.
Qed.

(** Whatever the tables, a rule that is returned has unit weight sum. *)
Lemma rule_body_unit_sum (lv : list Z) (c : chain) (k : pyobj) (x w : array) :
  rule_body lv c k = Ok (x, w) -> np_sum w == 1.
Proof.
  rewrite rule_body_lookup. destruct (getitem lv k) as [n| |]; simpl;
    try discriminate.
  unfold after_lookup.
  destruct (match select c n with Some _ => _ | None => _ end)
    as [[x0 w0]| |]; simpl; try discriminate.
  destruct (divide_by_sum w0) as [w1| |] eqn:D; simpl; try discriminate.
  intros H; injection H as _ <-. eapply divide_by_sum_unit; eauto.
Qed.

Lemma rule_at_unit_sum (f : family) (n : Z) :
  valid_level f n -> np_sum (snd (rule_at f n)) == 1.
Proof.
  intros H. pose proof (rule_fn_valid f n H) as R. rewrite rule_fn_body in R.
  destruct (rule_at f n) as [x w]. simpl. eapply rule_body_unit_sum; eauto.
Qed.

(** ** Claims about the rule tables *)

(** The tolerance the specification suggests for comparisons of floats. *)
Definition tolerance : Q := 1e-12.

(** C3.  For every family and every supported level, the weights returned by
    the rule function sum to one (exactly so in rational arithmetic, hence
    within [tolerance]), because each weight is divided by the sum of all
    weights of the rule. *)
Theorem weights_sum_to_one (f : family) (n : Z) :
  valid_level f n ->
  exists x w w0,
    rule_fn f (PyInt n) = Ok (x, w) /\
    w = map (fun v => Qred (v / np_sum w0)) w0 /\
    np_sum w == 1 /\
    Qabs (np_sum w - 1) <= tolerance.
Proof.
  intros H. pose proof (rule_fn_valid f n H) as R.
  destruct (rule_at f n) as [x w]. exists x, w.
  assert (U : np_sum w == 1).
  { rewrite rule_fn_body in R. eapply rule_body_unit_sum; eauto. }
  assert (T : Qabs (np_sum w - 1) <= tolerance).
  { rewrite U. vm_compute. discriminate. }
  pose proof R as R0.
  rewrite rule_fn_body, rule_body_lookup in R.
  destruct (getitem (levels f) (PyInt n)) as [o| |]; simpl in R;
    try discriminate.
  unfold after_lookup in R.
  destruct (match select (chain_of f) o with Some _ => _ | None => _ end)
    as [[x0 w0]| |]; simpl in R; try discriminate.
  unfold divide_by_sum in R.
  destruct (Qeq_bool (np_sum w0) 0); simpl in R; try discriminate.
  injection R as _ <-.
  exists w0. repeat split; auto.
Qed.

Lemma weights_sum_to_one_witness :
  exists x w w0,
    rule_fn GK16 (PyInt 5) = Ok (x, w) /\
    w = map (fun v => Qred (v / np_sum w0)) w0 /\
    np_sum w == 1 /\
    Qabs (np_sum w - 1) <= tolerance.
Proof.
  apply (weights_sum_to_one GK16 5). unfold valid_level. simpl. lia.
Defined.

(** C7, as the specification states it, fails: a negative level is outside
    [0, K), yet [gk16(-1)] raises nothing and returns the rule of level 8. *)
Lemma negative_level_is_accepted :
  ~ valid_level GK16 (-1) /\
  is_ok (rule_fn GK16 (PyInt (-1))) = true /\
  rule_fn GK16 (PyInt (-1)) = rule_fn GK16 (PyInt 8).
Proof.
  split; [|split].
  - unfold valid_level. simpl. lia.
  - vm_compute. reflexivity.
  - vm_compute. reflexivity.
Qed.

Lemma rule_fn_negative (f : family) (n : Z) :
  (- Z.of_nat (length (levels f)) <= n < 0)%Z ->
  rule_fn f (PyInt n) = rule_fn f (PyInt (n + Z.of_nat (length (levels f)))).
Proof.
  intros H. rewrite rule_fn_body, !rule_body_lookup.
  rewrite (getitem_negative (levels f) n H). reflexivity.
Qed.

Lemma rule_fn_out_of_range (f : family) (n : Z) :
  (n < - Z.of_nat (length (levels f)) \/ Z.of_nat (length (levels f)) <= n)%Z ->
  rule_fn f (PyInt n) = Raise IndexError.
Proof.
  intros H. rewrite rule_fn_body, rule_body_lookup.
  rewrite (getitem_out_of_range (levels f) n H). reflexivity.
Qed.

(** C7, amended.  With [K] the number of levels of the family: a level in
    [0, K) returns a rule; a level in [-K, 0) returns the rule of level
    [n + K]; every other integer, 99 among them, raises IndexError (the
    exception behind the specification's InvalidLevel). *)
Theorem level_lookup_outcomes (f : family) (n : Z) :
  let K := Z.of_nat (length (levels f)) in
  ((0 <= n < K)%Z -> exists r, rule_fn f (PyInt n) = Ok r) /\
  ((- K <= n < 0)%Z ->
     exists r, rule_fn f (PyInt n) = Ok r /\ rule_fn f (PyInt (n + K)) = Ok r) /\
  ((n < - K \/ K <= n)%Z -> rule_fn f (PyInt n) = Raise IndexError) /\
  rule_fn f (PyInt 99) = Raise IndexError.
Proof.
  cbv zeta. split; [|split; [|split]].
  - intros H. exists (rule_at f n). apply rule_fn_valid. exact H.
  - intros H. exists (rule_at f (n + Z.of_nat (length (levels f)))).
    assert (V : valid_level f (n + Z.of_nat (length (levels f))))
      by (unfold valid_level; lia).
    rewrite (rule_fn_negative f n H). split; apply rule_fn_valid; exact V.
  - apply rule_fn_out_of_range.
  - apply rule_fn_out_of_range. right. destruct f; simpl; lia.
Qed.

Lemma level_lookup_outcomes_witness :
  (exists r, rule_fn GK18 (PyInt 4) = Ok r) /\
  (exists r, rule_fn GK18 (PyInt (-5)) = Ok r /\ rule_fn GK18 (PyInt 0) = Ok r) /\
  rule_fn GK18 (PyInt (-6)) = Raise IndexError /\
  rule_fn GK18 (PyInt 5) = Raise IndexError.
Proof.
  split; [|split; [|split]].
  - apply (proj1 (level_lookup_outcomes GK18 4)). simpl. lia.
  - apply (proj1 (proj2 (level_lookup_outcomes GK18 (-5)))). simpl. lia.
  - apply (proj1 (proj2 (proj2 (level_lookup_outcomes GK18 (-6))))). simpl. lia.
  - apply (proj1 (proj2 (proj2 (level_lookup_outcomes GK18 5)))). simpl. lia.
Defined.

(** C9.  A negative level [n] with [-K <= n <= -1] is accepted by every rule
    function and yields the rule of level [K + n]: the level list is indexed
    the Python way.  So [gk16(-1)] is the rule of level 8, with 35 points, and
    [gk24(-1)] the rule of level 4, with 43 points. *)
Theorem negative_level_wraps_around (f : family) (n : Z) :
  let K := Z.of_nat (length (levels f)) in
  (- K <= n <= -1)%Z ->
  exists o x w,
    getitem (levels f) (PyInt (K + n)) = Ok o /\
    rule_fn f (PyInt n) = Ok (x, w) /\
    rule_fn f (PyInt (K + n)) = Ok (x, w) /\
    Z.of_nat (length x) = o /\ Z.of_nat (length w) = o.
Proof.
  cbv zeta. intros H.
  assert (V : valid_level f (Z.of_nat (length (levels f)) + n))
    by (unfold valid_level; lia).
  pose proof (rule_check_valid _ _ V) as C. unfold rule_check in C.
  rewrite (rule_fn_valid _ _ V) in C.
  destruct (rule_at f (Z.of_nat (length (levels f)) + n)) as [x w] eqn:E.
  destruct (getitem (levels f) (PyInt (Z.of_nat (length (levels f)) + n)))
    as [o| |]; try discriminate.
  exists o, x, w.
  apply andb_true_iff in C as [C _]. apply andb_true_iff in C as [C1 C2].
  rewrite rule_fn_negative by lia.
  rewrite (Z.add_comm n). rewrite (rule_fn_valid _ _ V), E.
  repeat split; auto; lia.
Qed.

Lemma negative_level_wraps_around_witness :
  (exists o x w,
     getitem (levels GK16) (PyInt (9 + -1)) = Ok o /\
     rule_fn GK16 (PyInt (-1)) = Ok (x, w) /\
     rule_fn GK16 (PyInt (9 + -1)) = Ok (x, w) /\
     Z.of_nat (length x) = o /\ Z.of_nat (length w) = o) /\
  (exists o x w,
     getitem (levels GK24) (PyInt (5 + -1)) = Ok o /\
     rule_fn GK24 (PyInt (-1)) = Ok (x, w) /\
     rule_fn GK24 (PyInt (5 + -1)) = Ok (x, w) /\
     Z.of_nat (length x) = o /\ Z.of_nat (length w) = o).
Proof.
  split.
  - exact (negative_level_wraps_around GK16 (-1) ltac:(simpl; lia)).
  - exact (negative_level_wraps_around GK24 (-1) ltac:(simpl; lia)).
Defined.

(** The two instances the claim names: the orders that levels -1 resolve
    to, and the sizes of the rules returned. *)
Lemma negative_level_examples :
  getitem gk16_levels (PyInt (-1)) = Ok 35%Z /\
  gk16 (PyInt (-1)) = gk16 (PyInt 8) /\
  getitem gk24_levels (PyInt (-1)) = Ok 43%Z /\
  gk24 (PyInt (-1)) = gk24 (PyInt 4) /\
  is_ok (gk16 (PyInt (-1))) = true /\ is_ok (gk24 (PyInt (-1))) = true.
Proof.
  split; [|split; [|split; [|split; [|split]]]]; vm_compute; reflexivity.
Qed.

(** ** Branch selection *)

Definition same_indices (a b : list nat) : bool :=
  if list_eq_dec Nat.eq_dec a b then true else false.

(** What running the chain on the order [o] must achieve for the division
    to be defined: one test holds, its two blocks run without an index
    error, the weight block writes the cells [0 .. o-1] one after the other,
    and the weights written do not sum to zero. *)
Definition branch_check (c : chain) (o : Z) : bool :=
  (length (filter (fun b => (o =? fst b)%Z) c) =? 1)%nat &&
  match select c o with
  | Some (bx, bw) =>
      match fill (zeros o) bx, fill (zeros o) bw with
      | Ok _, Ok w =>
          same_indices (map fst bw) (seq 0 (Z.to_nat o))
          && negb (Qeq_bool (np_sum w) 0)
      | _, _ => false
      end
  | None => false
  end.

Lemma branch_check_all :
  forallb (fun f => forallb (branch_check (chain_of f)) (levels f)) families
  = true.
Proof. vm_compute. reflexivity. Qed.

Lemma branch_check_level (f : family) (o : Z) :
  In o (levels f) -> branch_check (chain_of f) o = true.
Proof.
  intros H. pose proof branch_check_all as C.
  rewrite forallb_forall in C. specialize (C f (in_families f)).
  rewrite forallb_forall in C. exact (C o H).
Qed.

Lemma unit_sum_not_zeros (w : array) (o : Z) : np_sum w == 1 -> w <> zeros o.
Proof.
  intros U E. rewrite E, np_sum_zeros in U. discriminate U.
Qed.

(** Equality of arrays, entry by entry and as fractions, decided. *)
Definition Q_eq_dec (a b : Q) : {a = b} + {a <> b}.
Proof. decide equality; [apply Pos.eq_dec | apply Z.eq_dec]. Defined.

Definition same_array (a b : array) : bool :=
  if list_eq_dec Q_eq_dec a b then true else false.

(** The one branch whose abscissa block does not write the cells one after
    the other: the order-19 branch of [gk16]. *)
Definition skips_a_cell (f : family) (o : Z) : bool :=
  match f with
  | GK16 => (o =? 19)%Z
  | _ => false
  end.

(** What running the chain on the order [o] does to the abscissas: the
    abscissa block of the branch runs without an index error and (the branch
    above apart) writes the cells [0 .. o-1] one after the other; and the
    array it leaves is, once scaled, all zeros for the order 1 and for no
    other order. *)
Definition abscissa_check (f : family) (o : Z) : bool :=
  match select (chain_of f) o with
  | Some (bx, _) =>
      match fill (zeros o) bx with
      | Ok x =>
          (skips_a_cell f o
           || same_indices (map fst bx) (seq 0 (Z.to_nat o)))
          && Bool.eqb (same_array (scale_by_sqrt2 x) (zeros o)) (o =? 1)%Z
      | _ => false
      end
  | None => false
  end.

Lemma abscissa_check_all :
  forallb (fun f => forallb (abscissa_check f) (levels f)) families = true.
Proof. vm_compute. reflexivity. Qed.

Lemma abscissa_check_level (f : family) (o : Z) :
  In o (levels f) -> abscissa_check f o = true.
Proof.
  intros H. pose proof abscissa_check_all as C.
  rewrite forallb_forall in C. specialize (C f (in_families f)).
  rewrite forallb_forall in C. exact (C o H).
Qed.

Lemma same_array_eq (a b : array) : same_array a b = true <-> a = b.
Proof.
  unfold same_array. destruct (list_eq_dec Q_eq_dec a b) as [E|N].
  - split; [intros _; exact E | reflexivity].
  - split; [discriminate | intros E; contradiction].
Qed.

(** C10, as the specification states it, fails for the abscissas.  Level 0
    of every family is the one-point rule, whose branch writes the tabulated
    abscissa 0.0 into [x[0]]: the abscissa array returned is, value for
    value, the array [np.zeros(1)] the function started from. *)
Lemma one_point_rule_returns_zeros :
  gk16 (PyInt 0) = Ok (zeros 1, [1]) /\
  gk18 (PyInt 0) = Ok (zeros 1, [1]) /\
  gk22 (PyInt 0) = Ok (zeros 1, [1]) /\
  gk24 (PyInt 0) = Ok (zeros 1, [1]) /\
  gk16_x1 = [(0%nat, 0.0000000000000000E+00)].
Proof.
  split; [vm_compute; reflexivity|]. split; [vm_compute; reflexivity|].
  split; [vm_compute; reflexivity|]. split; [vm_compute; reflexivity|].
  reflexivity.
Qed.

(** C10, amended.  For every family and every level its level list accepts,
    the resolved order [o] satisfies exactly one test of the if/elif chain
    and both blocks of that branch run.  The weight block writes every cell;
    the weights written have a nonzero sum, so [w /= np.sum(w)] never divides
    by zero, and the weight array returned is never [np.zeros(o)].  The
    abscissa block writes every cell as well (the order-19 branch of [gk16]
    is left aside here), and the abscissa array returned is all zeros for
    the order 1, whose one tabulated abscissa is 0.0, and for no other
    order. *)
Theorem branch_fills_the_arrays (f : family) (n o : Z) :
  getitem (levels f) (PyInt n) = Ok o ->
  length (filter (fun b => (o =? fst b)%Z) (chain_of f)) = 1%nat /\
  exists bx bw x w w',
    select (chain_of f) o = Some (bx, bw) /\
    fill (zeros o) bx = Ok x /\
    fill (zeros o) bw = Ok w /\
    map fst bw = seq 0 (Z.to_nat o) /\
    ((f, o) <> (GK16, 19%Z) -> map fst bx = seq 0 (Z.to_nat o)) /\
    ~ np_sum w == 0 /\
    divide_by_sum w = Ok w' /\
    rule_fn f (PyInt n) = Ok (scale_by_sqrt2 x, w') /\
    w' <> zeros o /\
    (scale_by_sqrt2 x = zeros o <-> o = 1%Z).
Proof.
  intros G. pose proof (getitem_Ok_In _ _ _ G) as I.
  pose proof (branch_check_level f o I) as C. unfold branch_check in C.
  pose proof (abscissa_check_level f o I) as A. unfold abscissa_check in A.
  apply andb_true_iff in C as [C1 C2]. apply Nat.eqb_eq in C1.
  split; [exact C1|].
  destruct (select (chain_of f) o) as [[bx bw]|] eqn:S; [|discriminate].
  destruct (fill (zeros o) bx) as [x| |] eqn:Fx; try discriminate.
  destruct (fill (zeros o) bw) as [w| |] eqn:Fw; try discriminate.
  apply andb_true_iff in C2 as [C2 C3].
  apply andb_true_iff in A as [A1 A2].
  unfold same_indices in C2.
  destruct (list_eq_dec Nat.eq_dec (map fst bw) (seq 0 (Z.to_nat o)))
    as [Ei|]; [|discriminate].
  apply negb_true_iff in C3.
  assert (D : divide_by_sum w
              = Ok (map (fun v => Qred (v / np_sum w)) w)).
  { unfold divide_by_sum. rewrite C3. reflexivity. }
  exists bx, bw, x, w, (map (fun v => Qred (v / np_sum w)) w).
  split; [reflexivity|]. split; [exact Fx|]. split; [exact Fw|].
  split; [exact Ei|]. split.
  { intros NE. apply orb_true_iff in A1 as [K|K].
    - exfalso. apply NE. destruct f; simpl in K; try discriminate.
      apply Z.eqb_eq in K. subst o. reflexivity.
    - unfold same_indices in K.
      destruct (list_eq_dec Nat.eq_dec (map fst bx) (seq 0 (Z.to_nat o)))
        as [Ex|]; [exact Ex | discriminate]. }
  split; [apply Qeq_bool_neq; exact C3|].
  split; [exact D|]. split; [|split].
  - rewrite rule_fn_body, rule_body_lookup, G. simpl.
    unfold after_lookup. rewrite S, Fx. simpl. rewrite Fw. simpl.
    rewrite D. reflexivity.
  - apply unit_sum_not_zeros. eapply divide_by_sum_unit. exact D.
  - apply eqb_prop in A2. rewrite <- same_array_eq, A2. apply Z.eqb_eq.
Qed.

Lemma branch_fills_the_arrays_witness :
  length (filter (fun b => (19 =? fst b)%Z) (chain_of GK24)) = 1%nat /\
  exists bx bw x w w',
    select (chain_of GK24) 19 = Some (bx, bw) /\
    fill (zeros 19) bx = Ok x /\
    fill (zeros 19) bw = Ok w /\
    map fst bw = seq 0 (Z.to_nat 19) /\
    ((GK24, 19%Z) <> (GK16, 19%Z) -> map fst bx = seq 0 (Z.to_nat 19)) /\
    ~ np_sum w == 0 /\
    divide_by_sum w = Ok w' /\
    rule_fn GK24 (PyInt 3) = Ok (scale_by_sqrt2 x, w') /\
    w' <> zeros 19 /\
    (scale_by_sqrt2 x = zeros 19 <-> 19%Z = 1%Z).
Proof.
  exact (branch_fills_the_arrays GK24 3 19 eq_refl).
Defined.

(** ** Nesting and symmetry of the abscissas *)

Definition abscissas (f : family) (n : Z) : array := fst (rule_at f n).
Definition weights (f : family) (n : Z) : array := snd (rule_at f n).

(** [a] is within [tol] of some entry of [l]. *)
Definition near (tol a : Q) (l : array) : bool :=
  existsb (fun b => Qle_bool (Qabs (a - b)) tol) l.

(** Every entry of [inner] is within [tol] of some entry of [outer]. *)
Definition nested (tol : Q) (inner outer : array) : bool :=
  forallb (fun a => near tol a outer) inner.

(** How often the value [a] occurs in [l]. *)
Definition occurrences (a : Q) (l : array) : nat :=
  length (filter (Qeq_bool a) l).

(** The multiset of the entries of [l] is invariant under negation. *)
Definition symmetric (l : array) : bool :=
  forallb (fun a => (occurrences a l =? occurrences (- a) l)%nat) l.

(** The pairs of adjacent supported levels [(k, k+1)] of a family. *)
Definition adjacent_levels (f : family) : list Z :=
  map Z.of_nat (seq 0 (length (levels f) - 1)).

(** The abscissa that the order-19 branch of [gk16] loses: it is written to
    [x[8]] and overwritten by the next statement, while [x[6]] is never
    written. *)
Definition lost_abscissa : Q := Qred (-8.7004089535290285E-01 * np_sqrt2).

(** C4 at its failing input.  In [gk16], the abscissas of level 4 (order 17)
    are not nested in those of level 5 (order 19): level 4 holds
    [-0.87004089535290285 * sqrt 2], and no abscissa of level 5 comes
    within [tolerance] of it, nor even within 0.4. *)
Theorem gk16_level_4_not_nested_in_level_5 :
  gk16 (PyInt 4) = Ok (rule_at GK16 4) /\
  gk16 (PyInt 5) = Ok (rule_at GK16 5) /\
  nested tolerance (abscissas GK16 4) (abscissas GK16 5) = false /\
  existsb (Qeq_bool lost_abscissa) (abscissas GK16 4) = true /\
  near tolerance lost_abscissa (abscissas GK16 5) = false /\
  near 0.4 lost_abscissa (abscissas GK16 5) = false.
Proof.
  split; [|split; [|split; [|split; [|split]]]]; vm_compute; reflexivity.
Qed.

(** Every other pair of adjacent levels, in all four families, is nested
    within [tolerance]. *)
Lemma nested_elsewhere :
  forallb
    (fun f =>
       forallb
         (fun k =>
            match f, k with
            | GK16, 4%Z => true
            | _, _ => nested tolerance (abscissas f k) (abscissas f (k + 1))
            end)
         (adjacent_levels f))
    families = true.
Proof. vm_compute. reflexivity. Qed.

(** C5 at its failing input.  The abscissas that [gk16] returns at level 5
    (order 19) are not symmetric about zero: [0.87004089535290285 * sqrt 2]
    is among them and its negative is not, and zero occurs twice. *)
Theorem gk16_level_5_not_symmetric :
  gk16 (PyInt 5) = Ok (rule_at GK16 5) /\
  symmetric (abscissas GK16 5) = false /\
  occurrences (- lost_abscissa) (abscissas GK16 5) = 1%nat /\
  occurrences lost_abscissa (abscissas GK16 5) = 0%nat /\
  occurrences 0 (abscissas GK16 5) = 2%nat.
Proof.
  split; [|split; [|split; [|split]]]; vm_compute; reflexivity.
Qed.

(** At every other level of every family the abscissas are symmetric. *)
Lemma symmetric_elsewhere :
  forallb
    (fun f =>
       forallb
         (fun k =>
            match f, k with
            | GK16, 5%Z => true
            | _, _ => symmetric (abscissas f k)
            end)
         (level_range f))
    families = true.
Proof. vm_compute. reflexivity. Qed.

(** The order-19 block of [gk16] against the one of [gk18]: the same
    nineteen values in the same order, but with the indices 6, 7, 8 of the
    seventh to ninth statements replaced by 7, 8, 8. *)
Lemma gk16_x19_indices :
  map snd gk16_x19 = map snd gk18_x19 /\
  map fst gk18_x19 = seq 0 19 /\
  map fst gk16_x19 = seq 0 6 ++ [7; 8; 8]%nat ++ seq 9 10.
Proof. split; [|split]; reflexivity. Qed.

(** ** The levels the families share *)

(** All the calls of the list return one and the same rule. *)
Definition same_rule (calls : list (result (array * array))) : Prop :=
  exists r, Forall (fun c => c = Ok r) calls.

(** The orders a family resolves its levels to. *)
Definition orders_at (f : family) (ns : list Z) : list (result Z) :=
  map (fun n => getitem (levels f) (PyInt n)) ns.

(** C6, as the specification states it, fails.  By design: [gk16] has nine
    levels, its first four resolve to the orders 1, 3, 7, 9, and at level 2,
    which is the deepest level of neither, [gk16] and [gk18] return rules of
    7 and of 9 points.  And at the order 19 that all four tabulate, the
    abscissas of [gk16] (level 5) are not those of [gk18] (level 3). *)
Lemma gk16_differs_below_its_deepest_level :
  orders_at GK16 [0; 1; 2; 3]%Z = [Ok 1; Ok 3; Ok 7; Ok 9]%Z /\
  orders_at GK18 [0; 1; 2; 3]%Z = [Ok 1; Ok 3; Ok 9; Ok 19]%Z /\
  length (levels GK16) = 9%nat /\ length (levels GK18) = 5%nat /\
  length (abscissas GK16 2) = 7%nat /\ length (abscissas GK18 2) = 9%nat /\
  gk16 (PyInt 2) <> gk18 (PyInt 2) /\
  orders_at GK16 [5]%Z = orders_at GK18 [3]%Z /\
  nth 6 (abscissas GK16 5) 0 = 0 /\
  nth 6 (abscissas GK18 3) 0 = Qred (-1.2247448713915889E+00 * np_sqrt2) /\
  gk16 (PyInt 5) <> gk18 (PyInt 3).
Proof.
  split; [reflexivity|]. split; [reflexivity|].
  split; [reflexivity|]. split; [reflexivity|].
  split; [vm_compute; reflexivity|]. split; [vm_compute; reflexivity|].
  split.
  { intros E.
    assert (L : length (abscissas GK16 2) = length (abscissas GK18 2)).
    { unfold abscissas, rule_at. simpl rule_fn. rewrite E. reflexivity. }
    vm_compute in L. discriminate L. }
  split; [reflexivity|].
  split; [vm_compute; reflexivity|]. split; [vm_compute; reflexivity|].
  intros E.
  assert (L : nth 6 (abscissas GK16 5) 0 = nth 6 (abscissas GK18 3) 0).
  { unfold abscissas, rule_at. simpl rule_fn. rewrite E. reflexivity. }
  vm_compute in L. discriminate L.
Qed.

(** C6, amended.  [gk18], [gk22] and [gk24] return the same rules at their
    levels 0 to 3, of orders 1, 3, 9, 19, and differ at level 4, of orders
    37, 41, 43.  [gk16] returns those same rules for the orders 1, 3 and 9,
    which are its levels 0, 1 and 3, and has the same weights for the order
    19, its level 5; its deepest level is of order 35, and besides it has
    levels of orders 7, 17, 31 and 33 that the other families lack. *)
Theorem shared_levels_agree :
  same_rule [gk16 (PyInt 0); gk18 (PyInt 0); gk22 (PyInt 0); gk24 (PyInt 0)] /\
  same_rule [gk16 (PyInt 1); gk18 (PyInt 1); gk22 (PyInt 1); gk24 (PyInt 1)] /\
  same_rule [gk16 (PyInt 3); gk18 (PyInt 2); gk22 (PyInt 2); gk24 (PyInt 2)] /\
  same_rule [gk18 (PyInt 3); gk22 (PyInt 3); gk24 (PyInt 3)] /\
  weights GK16 5 = weights GK18 3 /\
  gk16 (PyInt 5) = Ok (rule_at GK16 5) /\
  orders_at GK16 [0; 1; 3; 5]%Z = [Ok 1; Ok 3; Ok 9; Ok 19]%Z /\
  orders_at GK18 [0; 1; 2; 3]%Z = [Ok 1; Ok 3; Ok 9; Ok 19]%Z /\
  orders_at GK22 [0; 1; 2; 3]%Z = [Ok 1; Ok 3; Ok 9; Ok 19]%Z /\
  orders_at GK24 [0; 1; 2; 3]%Z = [Ok 1; Ok 3; Ok 9; Ok 19]%Z /\
  map (fun f => last (levels f) 0%Z) families = [35; 37; 41; 43]%Z /\
  map (fun f => length (abscissas f (Z.of_nat (length (levels f)) - 1)))
      families = [35; 37; 41; 43]%nat /\
  orders_at GK16 [2; 4; 6; 7]%Z = [Ok 7; Ok 17; Ok 31; Ok 33]%Z.
Proof.
  split.
  { exists (rule_at GK18 0).
    repeat (apply Forall_cons; [vm_compute; reflexivity|]). apply Forall_nil. }
  split.
  { exists (rule_at GK18 1).
    repeat (apply Forall_cons; [vm_compute; reflexivity|]). apply Forall_nil. }
  split.
  { exists (rule_at GK18 2).
    repeat (apply Forall_cons; [vm_compute; reflexivity|]). apply Forall_nil. }
  split.
  { exists (rule_at GK18 3).
    repeat (apply Forall_cons; [vm_compute; reflexivity|]). apply Forall_nil. }
  split; [vm_compute; reflexivity|]. split; [vm_compute; reflexivity|].
  split; [reflexivity|]. split; [reflexivity|].
  split; [reflexivity|]. split; [reflexivity|].
  split; [reflexivity|]. split; [vm_compute; reflexivity|]. reflexivity.
Qed.

(** ** The Cartesian product *)

(** Sizes and flat indices.  [unravel shape j] is the tuple of indices that
    the flat index [j] stands for in a grid of the given shape, in C order
    (numpy's [unravel_index]): the first index varies slowest. *)
Definition size (shape : list nat) : nat := fold_right Nat.mul 1%nat shape.

Fixpoint unravel (shape : list nat) (j : nat) : list nat :=
  match shape with
  | [] => []
  | _ :: rest => (j / size rest)%nat :: unravel rest (j mod size rest)
  end.

(** The tuple that takes from each list the entry at its index. *)
Fixpoint pick {A : Type} (d : A) (idx : list nat) (X : list (list A)) : list A :=
  match idx, X with
  | i :: idx', l :: X' => nth i l d :: pick d idx' X'
  | _, _ => []
  end.

(** The sizes of the lists of a family of lists. *)
Definition shape_of {A : Type} (X : list (list A)) : list nat :=
  map (@length A) X.

Lemma length_flat_map_const {A B : Type} (f : A -> list B) (k : nat) (l : list A) :
  (forall a, length (f a) = k) -> length (flat_map f l) = (length l * k)%nat.
Proof.
  intros H. induction l as [|a l IH]; simpl; [reflexivity|].
  rewrite length_app, H, IH. reflexivity.
Qed.

Lemma utils_combine_length {A : Type} (X : list (list A)) :
  length (utils.combine X) = size (shape_of X).
Proof.
  unfold shape_of. induction X as [|l X IH]; simpl; [reflexivity|].
  rewrite (length_flat_map_const _ (length (utils.combine X))).
  - rewrite IH. reflexivity.
  - intros a. apply length_map.
Qed.

Lemma utils_combine_rows {A : Type} (X : list (list A)) (row : list A) :
  In row (utils.combine X) -> length row = length X.
Proof.
  revert row. induction X as [|l X IH]; simpl; intros row H.
  - destruct H as [<-|[]]. reflexivity.
  - apply in_flat_map in H as (a & _ & H). apply in_map_iff in H as (r & <- & H).
    simpl. f_equal. apply IH. exact H.
Qed.

(** The block structure of a product: entry [j] of
    [[a :: c for a in l for c in C]] is made of entries [j / |C|] of [l] and
    [j mod |C|] of [C]. *)
Lemma nth_error_blocks {A : Type} (d : A) (l : list A) (C : list (list A)) (j : nat) :
  (j < length l * length C)%nat ->
  nth_error (flat_map (fun a => map (cons a) C) l) j
  = Some (nth (j / length C) l d :: nth (j mod length C) C []).
Proof.
  revert j. induction l as [|a l IH]; intros j H; simpl in H; [lia|].
  assert (P : (0 < length C)%nat) by (destruct (length C); lia).
  simpl flat_map.
  destruct (Nat.lt_ge_cases j (length C)) as [Lt|Ge].
  - rewrite nth_error_app1 by (rewrite length_map; exact Lt).
    rewrite Nat.div_small, Nat.mod_small by exact Lt.
    rewrite nth_error_map.
    rewrite (nth_error_nth' C [] Lt). reflexivity.
  - rewrite nth_error_app2 by (rewrite length_map; exact Ge).
    rewrite length_map. rewrite IH by lia.
    replace j with ((j - length C) + 1 * length C)%nat at 3 4 by lia.
    rewrite Nat.div_add, Nat.Div0.mod_add by lia.
    replace ((j - length C) / length C + 1)%nat
      with (S ((j - length C) / length C)) by lia.
    reflexivity.
Qed.

(** Row [j] of the product is the tuple of index [unravel shape j]. *)
Lemma utils_combine_nth_error {A : Type} (d : A) (X : list (list A)) (j : nat) :
  (j < size (shape_of X))%nat ->
  nth_error (utils.combine X) j = Some (pick d (unravel (shape_of X) j) X).
Proof.
  revert j. induction X as [|l X IH]; intros j H;
    change (shape_of (@nil (list A))) with (@nil nat) in *;
    try change (shape_of (l :: X)) with (length l :: shape_of X) in *;
    simpl in H.
  - assert (E : j = 0%nat) by lia. subst j. reflexivity.
  - simpl utils.combine. rewrite <- utils_combine_length in H.
    rewrite (nth_error_blocks d) by exact H.
    simpl. rewrite utils_combine_length. f_equal. f_equal.
    assert (P : (0 < size (shape_of X))%nat).
    { rewrite <- utils_combine_length. destruct (length (utils.combine X)); lia. }
    assert (NZ : size (shape_of X) <> 0%nat) by lia.
    specialize (IH (j mod size (shape_of X))%nat
                  (Nat.mod_upper_bound _ _ NZ)).
    apply nth_error_nth with (d := []) in IH. exact IH.
Qed.

Lemma unravel_bounds (shape : list nat) (j : nat) :
  (j < size shape)%nat -> Forall2 lt (unravel shape j) shape.
Proof.
  revert j. induction shape as [|n rest IH]; intros j H; simpl.
  - constructor.
  - simpl in H.
    assert (P : (0 < size rest)%nat) by (destruct (size rest); lia).
    constructor.
    + apply Nat.Div0.div_lt_upper_bound. lia.
    + apply IH. apply Nat.mod_upper_bound. lia.
Qed.

(** The product commutes with a map over the entries. *)
Lemma utils_combine_map {A B : Type} (g : A -> B) (X : list (list A)) :
  utils.combine (map (map g) X) = map (map g) (utils.combine X).
Proof.
  induction X as [|l X IH]; simpl; [reflexivity|].
  rewrite IH. induction l as [|a l IHl]; simpl; [reflexivity|].
  rewrite map_app, IHl. f_equal. rewrite !map_map. reflexivity.
Qed.

(** ** Transposition, sums of products *)

Lemma map_nth_seq (r : array) :
  map (fun d => nth d r 0) (seq 0 (length r)) = r.
Proof.
  induction r as [|a r IH]; simpl; [reflexivity|].
  f_equal. rewrite <- seq_shift, map_map. exact IH.
Qed.

Lemma transpose_length (cols : nat) (m : list array) :
  length (transpose cols m) = cols.
Proof. unfold transpose. rewrite length_map, length_seq. reflexivity. Qed.

Lemma transpose_rows (cols : nat) (m : list array) :
  Forall (fun row => length row = length m) (transpose cols m).
Proof.
  unfold transpose. apply Forall_forall. intros row H.
  apply in_map_iff in H as (d & <- & _). apply length_map.
Qed.

(** Column [j] of the transposed array is row [j] of the array. *)
Lemma transpose_column (cols : nat) (m : list array) (j : nat) (row : array) :
  nth_error m j = Some row -> length row = cols ->
  map (fun r => nth j r 0) (transpose cols m) = row.
Proof.
  intros N L. unfold transpose. rewrite map_map.
  transitivity (map (fun d => nth d row 0) (seq 0 cols)).
  - apply map_ext. intros d.
    cbv beta. apply nth_error_nth.
    exact (map_nth_error (fun r => nth d r 0) j m N).
  - subst cols. apply map_nth_seq.
Qed.

Lemma np_prod_nil : np_prod [] = 1.
Proof. reflexivity. Qed.

(** The sum over a product grid of the products of the tuples is the
    product of the sums: distributivity, tuple by tuple. *)
Lemma np_sum_prepend (a : Q) (C : list array) :
  np_sum (map np_prod (map (cons a) C)) == a * np_sum (map np_prod C).
Proof.
  induction C as [|c C IH]; simpl.
  - rewrite np_sum_nil. ring.
  - rewrite !np_sum_cons, IH, np_prod_cons. ring.
Qed.

Lemma np_sum_combine (W : list array) :
  np_sum (map np_prod (utils.combine W)) == np_prod (map np_sum W).
Proof.
  induction W as [|l W IH]; simpl.
  - rewrite np_sum_cons. rewrite np_prod_nil, np_sum_nil. ring.
  - rewrite np_prod_cons, <- IH. clear IH.
    induction l as [|a l IHl]; simpl.
    + rewrite np_sum_nil. ring.
    + rewrite map_app, np_sum_app, IHl, np_sum_cons, np_sum_prepend. ring.
Qed.

(** ** The calls [gk] makes *)

Lemma comprehension_ok {A B : Type} (h : A -> result B) (g : A -> B) (l : list A) :
  (forall a, In a l -> h a = Ok (g a)) ->
  comprehension h l = Ok (map g l).
Proof.
  induction l as [|a l IH]; intros H; simpl; [reflexivity|].
  rewrite (H a (or_introl eq_refl)). simpl.
  rewrite IH by (intros b I; apply H; right; exact I). reflexivity.
Qed.

Lemma comprehension_ext {A B : Type} (h h' : A -> result B) (l : list A) :
  (forall a, In a l -> h a = h' a) -> comprehension h l = comprehension h' l.
Proof.
  induction l as [|a l IH]; intros H; simpl; [reflexivity|].
  rewrite (H a (or_introl eq_refl)).
  rewrite IH by (intros b I; apply H; right; exact I). reflexivity.
Qed.

(** The comprehension stops at the first element that raises. *)
Lemma comprehension_raise {A B : Type} (h : A -> result B) (e : exn)
    (l1 l2 : list A) (a : A) :
  (forall b, In b l1 -> h b = Raise e \/ exists v, h b = Ok v) ->
  h a = Raise e ->
  comprehension h (l1 ++ a :: l2) = Raise e.
Proof.
  intros H Ha. induction l1 as [|b l1 IH]; simpl.
  - rewrite Ha. reflexivity.
  - destruct (H b (or_introl eq_refl)) as [E|[v E]]; rewrite E; simpl.
    + reflexivity.
    + rewrite IH by (intros c I; apply H; right; exact I). reflexivity.
Qed.

Lemma eval_gk_family (f : family) : eval_gk (rule_of f) = Ok (rule_fn f).
Proof. destruct f; reflexivity. Qed.

(** A rule function called with an integer returns a rule or raises
    IndexError, nothing else. *)
Lemma rule_fn_int_outcome (f : family) (n : Z) :
  rule_fn f (PyInt n) = Raise IndexError \/ exists r, rule_fn f (PyInt n) = Ok r.
Proof.
  destruct (getitem (levels f) (PyInt n)) as [o|e|] eqn:G.
  - right. pose proof (getitem_Ok_In _ _ _ G) as I.
    pose proof (branch_check_level f o I) as C. unfold branch_check in C.
    apply andb_true_iff in C as [_ C].
    rewrite rule_fn_body, rule_body_lookup, G. simpl. unfold after_lookup.
    destruct (select (chain_of f) o) as [[bx bw]|]; [|discriminate].
    destruct (fill (zeros o) bx) as [x| |]; try discriminate.
    destruct (fill (zeros o) bw) as [w| |]; try discriminate.
    apply andb_true_iff in C as [_ C]. apply negb_true_iff in C.
    simpl. unfold divide_by_sum. rewrite C. simpl. eexists. reflexivity.
  - left. rewrite rule_fn_body, rule_body_lookup, G. simpl.
    unfold getitem in G.
    destruct (_ && _) in G; [|congruence].
    destruct (nth_error _ _) in G; congruence.
  - unfold getitem in G.
    destruct (_ && _) in G; [|discriminate].
    destruct (nth_error _ _) in G; discriminate.
Qed.

Lemma rule_fn_sequence (f : family) (l : list Z) :
  rule_fn f (PySeq l) = Raise TypeError.
Proof. rewrite rule_fn_body. reflexivity. Qed.

Section Calls.

Variable ndtr : Q -> Q.
Variable f : family.

(** The rule of one dimension: the abscissas of its level taken through
    [ndtr] and the inverse distribution function of its marginal, and the
    weights of its level as they are. *)
Definition dimension_rule (od : Z * marginal) : array * array :=
  (map (fun v => inv (snd od) (ndtr v)) (abscissas f (fst od)),
   weights f (fst od)).

Lemma gk_single_valid (n : Z) (d : marginal) :
  valid_level f n ->
  gk_single ndtr (PyInt n) [d] (rule_of f)
  = Ok ([fst (dimension_rule (n, d))], snd (dimension_rule (n, d))).
Proof.
  intros V. unfold gk_single. rewrite eval_gk_family. simpl.
  rewrite (rule_fn_valid f n V). unfold dimension_rule, abscissas, weights.
  destruct (rule_at f n) as [x w]. reflexivity.
Qed.

Lemma gk_single_int_outcome (n : Z) (d : marginal) :
  gk_single ndtr (PyInt n) [d] (rule_of f) = Raise IndexError
  \/ exists v, gk_single ndtr (PyInt n) [d] (rule_of f) = Ok v.
Proof.
  unfold gk_single. rewrite eval_gk_family. simpl.
  destruct (rule_fn_int_outcome f n) as [E|[[x w] E]]; rewrite E; simpl.
  - left. reflexivity.
  - right. eexists. reflexivity.
Qed.

(** With one distribution, a sequence for [order] reaches the level lookup
    as it is, and is no index. *)
Lemma gk_single_sequence (l : list Z) (dist : Dist) :
  gk_single ndtr (PySeq l) dist (rule_of f) = Raise TypeError.
Proof.
  unfold gk_single. rewrite eval_gk_family. simpl.
  rewrite rule_fn_sequence. reflexivity.
Qed.

End Calls.

(** ** The combined rule *)

(** The level each of [D] dimensions uses: the one integer for all of them,
    or the entries of the sequence. *)
Definition levels_of (order : pyobj) (D : nat) : list Z :=
  match order with
  | PyInt n => repeat n D
  | PySeq l => l
  end.

(** The level specifications under which [gk] returns a rule for [D]
    dimensions: a supported level, or, for two dimensions and more, one
    supported level per dimension. *)
Definition valid_order (f : family) (D : nat) (order : pyobj) : Prop :=
  match order with
  | PyInt n => valid_level f n
  | PySeq l => (2 <= D)%nat /\ length l = D /\ Forall (valid_level f) l
  end.

Lemma combine_repeat {A B : Type} (a : A) (l : list B) :
  List.combine (repeat a (length l)) l = map (fun b => (a, b)) l.
Proof. induction l as [|b l IH]; simpl; [reflexivity|]. rewrite IH. reflexivity. Qed.

Lemma map_seq_combine {A B C : Type} (F : A * B -> C) (a0 : A) (b0 : B)
    (l : list A) (m : list B) :
  length l = length m ->
  map (fun i => F (nth i l a0, nth i m b0)) (seq 0 (length m))
  = map F (List.combine l m).
Proof.
  revert m. induction l as [|a l IH]; intros [|b m] H; simpl in H;
    try discriminate; simpl; [reflexivity|].
  f_equal. rewrite <- seq_shift, map_map. apply IH. lia.
Qed.

Section Combining.

Variable ndtr : Q -> Q.
Variable f : family.

(** The rules of the dimensions, in the order of the dimensions. *)
Definition dimension_rules (lv : list Z) (dist : Dist) : list (array * array) :=
  map (dimension_rule ndtr f) (List.combine lv dist).

(** What a recursive call returns for a dimension: its nodes as a matrix
    of one row, and its weights. *)
Definition as_row (r : array * array) : list array * array := ([fst r], snd r).

Lemma dimension_rules_length (lv : list Z) (dist : Dist) :
  length lv = length dist -> length (dimension_rules lv dist) = length dist.
Proof.
  intros H. unfold dimension_rules. rewrite length_map, length_combine. lia.
Qed.

(** The weights of the dimensions depend on the levels alone. *)
Lemma dimension_rules_weights (lv : list Z) (dist : Dist) :
  length lv = length dist ->
  map snd (dimension_rules lv dist) = map (weights f) lv.
Proof.
  unfold dimension_rules. revert dist.
  induction lv as [|o lv IH]; intros [|d dist] H; simpl in H;
    try discriminate; simpl; [reflexivity|].
  f_equal. apply IH. lia.
Qed.

Lemma levels_of_length (order : pyobj) (D : nat) :
  valid_order f D order -> length (levels_of order D) = D.
Proof.
  destruct order as [n|l]; simpl.
  - intros _. apply repeat_length.
  - intros (_ & H & _). exact H.
Qed.

Lemma levels_of_valid (order : pyobj) (D : nat) :
  valid_order f D order -> Forall (valid_level f) (levels_of order D).
Proof.
  destruct order as [n|l]; simpl.
  - intros V. apply Forall_forall. intros o I.
    apply repeat_spec in I. subst o. exact V.
  - intros (_ & _ & H). exact H.
Qed.

(** The list [xw] that the comprehensions of [gk] build. *)
Lemma calls_with_integer (n : Z) (dist : Dist) :
  valid_level f n ->
  comprehension (fun d => gk_single ndtr (PyInt n) [d] (rule_of f)) dist
  = Ok (map as_row (dimension_rules (repeat n (length dist)) dist)).
Proof.
  intros V. unfold dimension_rules.
  rewrite combine_repeat, !map_map.
  apply comprehension_ok. intros d _. apply gk_single_valid. exact V.
Qed.

Lemma calls_with_sequence (l : list Z) (dist : Dist) :
  length l = length dist -> Forall (valid_level f) l ->
  comprehension
    (fun i =>
       o <- getitem l (PyInt (Z.of_nat i)) ;;
       match nth_error dist i with
       | Some d => gk_single ndtr (PyInt o) [d] (rule_of f)
       | None => Raise IndexError
       end)
    (seq 0 (length dist))
  = Ok (map as_row (dimension_rules l dist)).
Proof.
  intros L V. unfold dimension_rules. rewrite map_map.
  rewrite <- (map_seq_combine
                (fun od => as_row (dimension_rule ndtr f od))
                0%Z {| inv := fun q => q |} l dist L).
  apply comprehension_ok. intros i I. apply in_seq in I.
  destruct (getitem_nonneg l (Z.of_nat i)) as (o & N & G); [lia|].
  rewrite Nat2Z.id in N. rewrite G. simpl.
  rewrite (nth_error_nth _ _ 0%Z N).
  destruct (nth_error dist i) as [d|] eqn:Nd.
  - rewrite (nth_error_nth _ _ {| inv := fun q => q |} Nd).
    apply gk_single_valid.
    rewrite Forall_forall in V. apply V. eapply nth_error_In; eauto.
  - apply nth_error_None in Nd. lia.
Qed.

(** [gk] for two dimensions and more. *)
Lemma gk_multi (order : pyobj) (dist : Dist) :
  (2 <= length dist)%nat -> valid_order f (length dist) order ->
  let rules := dimension_rules (levels_of order (length dist)) dist in
  gk ndtr order dist (rule_of f)
  = Ok (transpose (length dist) (utils.combine (map fst rules)),
        map np_prod (utils.combine (map snd rules))).
Proof.
  intros D V rules. unfold gk.
  replace (1 <? length dist)%nat with true by (symmetry; apply Nat.ltb_lt; lia).
  assert (X : match order with
              | PyInt _ =>
                  comprehension (fun d => gk_single ndtr order [d] (rule_of f)) dist
              | PySeq l =>
                  comprehension
                    (fun i =>
                       o <- getitem l (PyInt (Z.of_nat i)) ;;
                       match nth_error dist i with
                       | Some d => gk_single ndtr (PyInt o) [d] (rule_of f)
                       | None => Raise IndexError
                       end)
                    (seq 0 (length dist))
              end = Ok (map as_row rules)).
  { subst rules. destruct order as [n|l]; simpl in V |- *.
    - apply calls_with_integer. exact V.
    - destruct V as (_ & L & V). apply calls_with_sequence; assumption. }
  rewrite X. simpl.
  rewrite !map_map. simpl.
  rewrite length_map.
  replace (length rules) with (length dist)
    by (symmetry; apply dimension_rules_length, levels_of_length; exact V).
  reflexivity.
Qed.

(** [gk] for one dimension. *)
Lemma gk_one (n : Z) (d : marginal) :
  valid_level f n ->
  gk ndtr (PyInt n) [d] (rule_of f)
  = Ok ([fst (dimension_rule ndtr f (n, d))], snd (dimension_rule ndtr f (n, d))).
Proof. intros V. unfold gk. simpl. apply gk_single_valid. exact V. Qed.

End Combining.

(** ** Claims about the combinator *)

Lemma dimension_rules_shape (ndtr : Q -> Q) (f : family) (lv : list Z) (dist : Dist) :
  Forall (valid_level f) lv ->
  shape_of (map fst (dimension_rules ndtr f lv dist))
  = shape_of (map snd (dimension_rules ndtr f lv dist)).
Proof.
  intros V. unfold shape_of, dimension_rules. rewrite !map_map.
  apply map_ext_in. intros [o d] I. apply in_combine_l in I.
  rewrite Forall_forall in V. specialize (V o I).
  unfold dimension_rule, abscissas, weights. simpl.
  rewrite length_map. apply (rule_at_nonempty f o V).
Qed.

(** C1, as the specification states it, fails for one dimension: a sequence
    holding the one level of the one dimension is a level per dimension, but
    [gk] hands it to the rule function as it is, where it is no index. *)
Lemma one_dimension_rejects_a_sequence :
  let d := {| inv := fun q => q |} in
  length [0%Z] = length [d] /\
  Forall (valid_level GK24) [0%Z] /\
  gk (fun q => q) (PySeq [0%Z]) [d] 24 = Raise TypeError /\
  gk24 (PySeq [0%Z]) = Raise TypeError.
Proof.
  cbv zeta. split; [reflexivity|]. split.
  - constructor; [|constructor]. unfold valid_level. simpl. lia.
  - split; reflexivity.
Qed.

(** C1, amended.  For [D >= 1] distributions and a supported level, or
    [D >= 2] distributions and a sequence of [D] supported levels, [gk]
    returns a node matrix of [D] rows and [N1 * ... * ND] columns and as
    many weights, [Ni] being the size of the rule of dimension [i].  Column
    [j] holds, for each dimension, the node of that dimension at the index
    that [j] unravels to, and weight [j] is the product of the weights of the
    dimensions at these same indices.  (For one distribution a sequence is
    rejected, whatever its length.) *)
Theorem gk_shape_and_pairing (ndtr : Q -> Q) (f : family) (order : pyobj)
    (dist : Dist) :
  dist <> [] -> valid_order f (length dist) order ->
  let rules := dimension_rules ndtr f (levels_of order (length dist)) dist in
  let shape := shape_of (map snd rules) in
  exists nodes wts,
    gk ndtr order dist (rule_of f) = Ok (nodes, wts) /\
    length rules = length dist /\
    shape_of (map fst rules) = shape /\
    length nodes = length dist /\
    Forall (fun row => length row = size shape) nodes /\
    length wts = size shape /\
    forall j, (j < size shape)%nat ->
      Forall2 lt (unravel shape j) shape /\
      map (fun row => nth j row 0) nodes
        = pick 0 (unravel shape j) (map fst rules) /\
      nth j wts 0 == np_prod (pick 0 (unravel shape j) (map snd rules)).
Proof.
  intros NE V rules shape.
  assert (LR : length rules = length dist).
  { apply dimension_rules_length, (levels_of_length f); exact V. }
  assert (SH : shape_of (map fst rules) = shape).
  { apply dimension_rules_shape, levels_of_valid; exact V. }
  destruct dist as [|d [|d' dist']]; [congruence| |].
  - (* one dimension *)
    destruct order as [n|l]; simpl in V; [|lia].
    exists [fst (dimension_rule ndtr f (n, d))], (snd (dimension_rule ndtr f (n, d))).
    split; [apply gk_one; exact V|].
    split; [exact LR|]. split; [exact SH|].
    subst rules shape. unfold dimension_rules, shape_of in *.
    simpl in SH |- *. injection SH as SH.
    split; [reflexivity|].
    split; [constructor; [lia|constructor]|].
    split; [lia|].
    intros j J. rewrite Nat.mul_1_r in J.
    change (fst (Nat.divmod j 0 0 0)) with (j / 1)%nat. rewrite Nat.div_1_r.
    split; [constructor; [exact J|constructor]|].
    split; [reflexivity|].
    rewrite np_prod_cons, np_prod_nil. ring.
  - (* two dimensions and more *)
    remember (d :: d' :: dist') as dist eqn:Ed.
    assert (D : (2 <= length dist)%nat) by (subst dist; simpl; lia).
    exists (transpose (length dist) (utils.combine (map fst rules))),
           (map np_prod (utils.combine (map snd rules))).
    split; [apply gk_multi; assumption|].
    split; [exact LR|]. split; [exact SH|].
    split; [apply transpose_length|].
    split.
    { rewrite <- SH, <- utils_combine_length. apply transpose_rows. }
    split.
    { rewrite length_map. apply utils_combine_length. }
    intros j J. split; [apply unravel_bounds; exact J|].
    split.
    + apply transpose_column.
      * rewrite <- SH. apply utils_combine_nth_error. rewrite SH. exact J.
      * pose proof (utils_combine_nth_error 0 (map fst rules) j) as N.
        rewrite SH in N. specialize (N J). apply nth_error_In in N.
        apply utils_combine_rows in N. rewrite N, length_map. exact LR.
    + pose proof (utils_combine_nth_error 0 (map snd rules) j J) as N.
      rewrite (nth_error_nth _ _ 0 (map_nth_error np_prod j _ N)).
      reflexivity.
Qed.

Lemma gk_shape_and_pairing_witness :
  let ndtr := fun q : Q => q in
  let dist := [ {| inv := fun q => q |}; {| inv := fun q => q + 1 |} ] in
  let order := PySeq [1; 2]%Z in
  let rules := dimension_rules ndtr GK16 (levels_of order (length dist)) dist in
  let shape := shape_of (map snd rules) in
  exists nodes wts,
    gk ndtr order dist (rule_of GK16) = Ok (nodes, wts) /\
    length rules = length dist /\
    shape_of (map fst rules) = shape /\
    length nodes = length dist /\
    Forall (fun row => length row = size shape) nodes /\
    length wts = size shape /\
    forall j, (j < size shape)%nat ->
      Forall2 lt (unravel shape j) shape /\
      map (fun row => nth j row 0) nodes
        = pick 0 (unravel shape j) (map fst rules) /\
      nth j wts 0 == np_prod (pick 0 (unravel shape j) (map snd rules)).
Proof.
  apply (gk_shape_and_pairing (fun q : Q => q) GK16 (PySeq [1; 2]%Z)
           [ {| inv := fun q => q |}; {| inv := fun q => q + 1 |} ]).
  - discriminate.
  - simpl. split; [lia|]. split; [reflexivity|].
    constructor; [unfold valid_level; simpl; lia|].
    constructor; [unfold valid_level; simpl; lia|]. constructor.
Defined.

(** The shape of the rule in the witness: three points times seven. *)
Lemma gk_shape_example :
  shape_of (map snd (dimension_rules (fun q => q) GK16 [1; 2]%Z
                       [ {| inv := fun q => q |}; {| inv := fun q => q + 1 |} ]))
  = [3; 7]%nat.
Proof. vm_compute. reflexivity. Qed.

Lemma np_prod_ones (l : list Q) : Forall (fun v => v == 1) l -> np_prod l == 1.
Proof.
  induction 1 as [|v l Hv _ IH].
  - reflexivity.
  - rewrite np_prod_cons, Hv, IH. ring.
Qed.

(** C2.  For two dimensions and more and a valid level specification, [gk]
    returns weights whose sum is the product of the sums of the weights of
    the dimensions, which is one; and the weights do not depend on the
    distributions nor on [ndtr], which only the nodes go through. *)
Theorem combined_weights_sum (ndtr : Q -> Q) (f : family) (order : pyobj)
    (dist : Dist) :
  (2 <= length dist)%nat -> valid_order f (length dist) order ->
  exists nodes wts,
    gk ndtr order dist (rule_of f) = Ok (nodes, wts) /\
    np_sum wts
      == np_prod (map np_sum (map (weights f) (levels_of order (length dist)))) /\
    np_sum wts == 1 /\
    Qabs (np_sum wts - 1) <= tolerance /\
    forall (ndtr' : Q -> Q) (dist' : Dist),
      length dist' = length dist ->
      exists nodes', gk ndtr' order dist' (rule_of f) = Ok (nodes', wts).
Proof.
  intros D V.
  pose proof (levels_of_length f order (length dist) V) as L.
  pose proof (levels_of_valid f order (length dist) V) as VL.
  exists (transpose (length dist)
            (utils.combine
               (map fst (dimension_rules ndtr f
                           (levels_of order (length dist)) dist)))),
         (map np_prod
            (utils.combine (map (weights f) (levels_of order (length dist))))).
  assert (S : np_sum (map np_prod
                        (utils.combine
                           (map (weights f) (levels_of order (length dist)))))
              == 1).
  { rewrite np_sum_combine. apply np_prod_ones.
    rewrite map_map. apply Forall_forall. intros s I.
    apply in_map_iff in I as (o & <- & I).
    rewrite Forall_forall in VL. apply (rule_at_unit_sum f o (VL o I)). }
  split.
  { rewrite (gk_multi ndtr f order dist D V). cbv zeta.
    rewrite dimension_rules_weights by exact L. reflexivity. }
  split; [apply np_sum_combine|].
  split; [exact S|].
  split; [rewrite S; vm_compute; discriminate|].
  intros ndtr' dist' L'.
  exists (transpose (length dist')
            (utils.combine
               (map fst (dimension_rules ndtr' f
                           (levels_of order (length dist')) dist')))).
  rewrite (gk_multi ndtr' f order dist') by (rewrite L'; assumption).
  cbv zeta. rewrite dimension_rules_weights by (rewrite L'; exact L).
  rewrite L'. reflexivity.
Qed.

Lemma combined_weights_sum_witness :
  let ndtr := fun q : Q => q in
  let dist := [ {| inv := fun q => q |}; {| inv := fun q => q + 1 |} ] in
  exists nodes wts,
    gk ndtr (PyInt 3) dist (rule_of GK24) = Ok (nodes, wts) /\
    np_sum wts
      == np_prod (map np_sum (map (weights GK24) (levels_of (PyInt 3) (length dist)))) /\
    np_sum wts == 1 /\
    Qabs (np_sum wts - 1) <= tolerance /\
    forall (ndtr' : Q -> Q) (dist' : Dist),
      length dist' = length dist ->
      exists nodes', gk ndtr' (PyInt 3) dist' (rule_of GK24) = Ok (nodes', wts).
Proof.
  apply (combined_weights_sum (fun q : Q => q) GK24 (PyInt 3)
           [ {| inv := fun q => q |}; {| inv := fun q => q + 1 |} ]).
  - simpl. lia.
  - unfold valid_order, valid_level. simpl. lia.
Defined.

(** C8, as the specification states it, fails: with two distributions and
    three levels the lengths differ, yet [gk] returns a rule, the one of the
    first two levels; and with one distribution and the levels [[0, 1]] the
    failure is the TypeError of the level lookup, which any sequence meets
    there, the sequence of the right length too. *)
Lemma mismatched_order_is_not_rejected :
  let d := {| inv := fun q => q |} in
  let ndtr := fun q : Q => q in
  length [0; 0; 0]%Z <> length [d; d] /\
  gk ndtr (PySeq [0; 0; 0]%Z) [d; d] 24 = Ok ([[0]; [0]], [1]) /\
  gk ndtr (PySeq [0; 0; 0]%Z) [d; d] 24 = gk ndtr (PySeq [0; 0]%Z) [d; d] 24 /\
  gk ndtr (PySeq [0; 1]%Z) [d] 24 = Raise TypeError /\
  gk ndtr (PySeq [0]%Z) [d] 24 = Raise TypeError /\
  gk24 (PySeq [0; 1]%Z) = Raise TypeError.
Proof.
  cbv zeta. split; [simpl; lia|].
  split; [vm_compute; reflexivity|]. split; [vm_compute; reflexivity|].
  split; [reflexivity|]. split; reflexivity.
Qed.

Lemma getitem_firstn {A : Type} (l : list A) (k i : nat) :
  (i < k)%nat -> (k <= length l)%nat ->
  getitem (firstn k l) (PyInt (Z.of_nat i)) = getitem l (PyInt (Z.of_nat i)).
Proof.
  intros I K.
  destruct (getitem_nonneg l (Z.of_nat i)) as (a & N & G); [lia|].
  destruct (getitem_nonneg (firstn k l) (Z.of_nat i)) as (b & N' & G').
  { rewrite length_firstn. lia. }
  rewrite G, G'. rewrite Nat2Z.id in N, N'.
  rewrite nth_error_firstn in N'.
  destruct (i <? k)%nat eqn:E; [|apply Nat.ltb_ge in E; lia].
  congruence.
Qed.

(** C8, amended.  [gk] has no check of its own on the length of [order].
    With one distribution, every sequence raises TypeError in the level
    lookup.  With [D >= 2] distributions, a sequence of fewer than [D]
    levels raises IndexError (reading [order[i]], or earlier for a level no
    table has), and a sequence of more than [D] levels is read up to its
    first [D] entries; the rest is ignored, and a rule is returned when
    these entries are supported levels. *)
Theorem order_length_mismatch (ndtr : Q -> Q) (f : family) (l : list Z)
    (dist : Dist) :
  (length dist = 1%nat -> gk ndtr (PySeq l) dist (rule_of f) = Raise TypeError) /\
  ((2 <= length dist)%nat -> (length l < length dist)%nat ->
     gk ndtr (PySeq l) dist (rule_of f) = Raise IndexError) /\
  ((2 <= length dist)%nat -> (length dist < length l)%nat ->
     gk ndtr (PySeq l) dist (rule_of f)
     = gk ndtr (PySeq (firstn (length dist) l)) dist (rule_of f) /\
     (Forall (valid_level f) (firstn (length dist) l) ->
      exists r, gk ndtr (PySeq l) dist (rule_of f) = Ok r)).
Proof.
  split; [|split].
  - intros L. destruct dist as [|d [|d' dist']]; try discriminate.
    unfold gk. simpl. apply gk_single_sequence.
  - intros D L. unfold gk.
    replace (1 <? length dist)%nat with true
      by (symmetry; apply Nat.ltb_lt; lia).
    replace (seq 0 (length dist))
      with (seq 0 (length l)
              ++ length l :: seq (S (length l)) (length dist - S (length l))).
    2:{ replace (length dist)
          with (length l + S (length dist - S (length l)))%nat at 2 by lia.
        rewrite seq_app. reflexivity. }
    rewrite (comprehension_raise _ IndexError); [reflexivity| |].
    + intros i I. apply in_seq in I.
      destruct (getitem_nonneg l (Z.of_nat i)) as (o & _ & G); [lia|].
      rewrite G. simpl.
      destruct (nth_error dist i) as [d|] eqn:N.
      * apply gk_single_int_outcome.
      * left. reflexivity.
    + rewrite getitem_out_of_range by lia. reflexivity.
  - intros D L.
    assert (E : gk ndtr (PySeq l) dist (rule_of f)
                = gk ndtr (PySeq (firstn (length dist) l)) dist (rule_of f)).
    { unfold gk.
      replace (1 <? length dist)%nat with true
        by (symmetry; apply Nat.ltb_lt; lia).
      f_equal. apply comprehension_ext. intros i I. apply in_seq in I.
      rewrite getitem_firstn by lia. reflexivity. }
    split; [exact E|].
    intros V. rewrite E.
    eexists. apply gk_multi; [exact D|].
    simpl. split; [exact D|]. split; [|exact V].
    rewrite length_firstn. lia.
Qed.

Lemma order_length_mismatch_witness :
  let ndtr := fun q : Q => q in
  let d := {| inv := fun q => q |} in
  gk ndtr (PySeq [0; 1]%Z) [d] (rule_of GK24) = Raise TypeError /\
  gk ndtr (PySeq [0]%Z) [d; d] (rule_of GK24) = Raise IndexError /\
  (exists r, gk ndtr (PySeq [1; 2; 3]%Z) [d; d] (rule_of GK24) = Ok r).
Proof.
  cbv zeta. split; [|split].
  - apply (proj1 (order_length_mismatch (fun q : Q => q) GK24 [0; 1]%Z
                    [ {| inv := fun q => q |} ])).
    reflexivity.
  - apply (proj1 (proj2 (order_length_mismatch (fun q : Q => q) GK24 [0]%Z
                           [ {| inv := fun q => q |}; {| inv := fun q => q |} ])));
      simpl; lia.
  - apply (proj2 (proj2 (order_length_mismatch (fun q : Q => q) GK24
                           [1; 2; 3]%Z
                           [ {| inv := fun q => q |}; {| inv := fun q => q |} ])));
      try (simpl; lia).
    simpl. constructor; [unfold valid_level; simpl; lia|].
    constructor; [unfold valid_level; simpl; lia|]. constructor.
Defined.

(** * Further properties of the code *)

(** ** Sizes of the arrays *)

Lemma scale_by_sqrt2_length (x : array) : length (scale_by_sqrt2 x) = length x.
Proof. apply length_map. Qed.

(** Whatever the level list and the tables, a rule that is returned has as
    many abscissas and as many weights as the order looked up says: the
    arrays are allocated with that size and only written in place. *)
Theorem rule_body_sizes (lv : list Z) (c : chain) (k : pyobj) (x w : array) :
  rule_body lv c k = Ok (x, w) ->
  exists o, getitem lv k = Ok o /\ In o lv /\
            length x = Z.to_nat o /\ length w = Z.to_nat o.
Proof.
  rewrite rule_body_lookup.
  destruct (getitem lv k) as [o| |] eqn:G; simpl; try discriminate.
  intros H. exists o. split; [reflexivity|].
  split; [eapply getitem_Ok_In; eauto|].
  unfold after_lookup in H.
  assert (F : exists x0 w0,
             match select c o with
             | Some (bx, bw) =>
                 x <- fill (zeros o) bx ;; w <- fill (zeros o) bw ;; Ok (x, w)
             | None => Ok (zeros o, zeros o)
             end = Ok (x0, w0) /\
             length x0 = Z.to_nat o /\ length w0 = Z.to_nat o /\
             (w1 <- divide_by_sum w0 ;; Ok (scale_by_sqrt2 x0, w1)) = Ok (x, w)).
  { destruct (select c o) as [[bx bw]|].
    - destruct (fill (zeros o) bx) as [x0| |] eqn:Fx; simpl in H |- *;
        try discriminate.
      destruct (fill (zeros o) bw) as [w0| |] eqn:Fw; simpl in H |- *;
        try discriminate.
      exists x0, w0. split; [reflexivity|].
      rewrite (fill_length _ _ _ Fx), (fill_length _ _ _ Fw), zeros_length.
      split; [reflexivity|]. split; [reflexivity|]. exact H.
    - simpl in H. exists (zeros o), (zeros o). split; [reflexivity|].
      rewrite zeros_length. split; [reflexivity|]. split; [reflexivity|].
      exact H. }
  destruct F as (x0 & w0 & _ & Lx & Lw & R).
  destruct (divide_by_sum w0) as [w1| |] eqn:D; simpl in R; try discriminate.
  injection R as <- <-.
  rewrite scale_by_sqrt2_length, (divide_by_sum_length _ _ D). split; assumption.
Qed.

Lemma rule_body_sizes_witness :
  exists o, getitem gk22_levels (PyInt 2) = Ok o /\ In o gk22_levels /\
            length (fst (rule_at GK22 2)) = Z.to_nat o /\
            length (snd (rule_at GK22 2)) = Z.to_nat o.
Proof.
  apply (rule_body_sizes gk22_levels gk22_chain (PyInt 2)).
  vm_compute. reflexivity.
Defined.

(** ** Errors of the combinator *)

(** The exception [eval("gk"+str(rule))] ends in for a [rule] that names
    none of the four functions. *)
Definition unknown_rule_error (rule : Z) : exn :=
  if (rule <? 0)%Z then TypeError else NameError.

Definition supported_rule (rule : Z) : bool :=
  existsb (Z.eqb rule) (map rule_of families).

Lemma eval_gk_unknown (rule : Z) :
  supported_rule rule = false ->
  eval_gk rule = Raise (unknown_rule_error rule).
Proof.
  unfold supported_rule, eval_gk, unknown_rule_error. simpl.
  destruct (rule =? 16)%Z; [discriminate|].
  destruct (rule =? 18)%Z; [discriminate|].
  destruct (rule =? 22)%Z; [discriminate|].
  destruct (rule =? 24)%Z; [discriminate|].
  intros _. destruct (rule <? 0)%Z; reflexivity.
Qed.

Lemma gk_single_unknown (ndtr : Q -> Q) (order : pyobj) (dist : Dist) (rule : Z) :
  supported_rule rule = false ->
  gk_single ndtr order dist rule = Raise (unknown_rule_error rule).
Proof.
  intros U. unfold gk_single. rewrite (eval_gk_unknown rule U). reflexivity.
Qed.

(** A [rule] other than 16, 18, 22 and 24 makes [gk] fail before any level
    is looked up: with NameError (TypeError for a negative [rule]), whatever
    the levels and the distributions, valid or not.  (Only an empty sequence
    of levels fails earlier, on [order[0]].) *)
Theorem unknown_rule_raises (ndtr : Q -> Q) (order : pyobj) (dist : Dist)
    (rule : Z) :
  supported_rule rule = false -> order <> PySeq [] ->
  gk ndtr order dist rule = Raise (unknown_rule_error rule).
Proof.
  intros U NE. unfold gk.
  destruct (1 <? length dist)%nat eqn:D; [|apply gk_single_unknown; exact U].
  apply Nat.ltb_lt in D.
  destruct dist as [|d dist]; [simpl in D; lia|].
  destruct order as [n|[|o l]]; [| congruence |].
  - simpl. rewrite gk_single_unknown by exact U. reflexivity.
  - cbn [length seq comprehension].
    change (getitem (o :: l) (PyInt (Z.of_nat 0))) with (@Ok Z o).
    simpl. rewrite gk_single_unknown by exact U. reflexivity.
Qed.

Lemma unknown_rule_raises_witness :
  gk (fun q => q) (PyInt 99) [ {| inv := fun q => q |} ] 20 = Raise NameError /\
  gk (fun q => q) (PySeq [0; 0]%Z)
     [ {| inv := fun q => q |}; {| inv := fun q => q |} ] (-16)
  = Raise TypeError.
Proof.
  split.
  - apply (unknown_rule_raises (fun q => q) (PyInt 99)
             [ {| inv := fun q => q |} ] 20); [reflexivity | discriminate].
  - apply (unknown_rule_raises (fun q => q) (PySeq [0; 0]%Z)
             [ {| inv := fun q => q |}; {| inv := fun q => q |} ] (-16));
      [reflexivity | discriminate].
Defined.

(** A level outside [-K, K), for the [K] levels of the family. *)
Definition out_of_range (f : family) (n : Z) : Prop :=
  (n < - Z.of_nat (length (levels f)) \/ Z.of_nat (length (levels f)) <= n)%Z.

Lemma gk_single_out_of_range (ndtr : Q -> Q) (f : family) (n : Z) (dist : Dist) :
  out_of_range f n ->
  gk_single ndtr (PyInt n) dist (rule_of f) = Raise IndexError.
Proof.
  intros O. unfold gk_single. rewrite eval_gk_family. simpl.
  rewrite (rule_fn_out_of_range f n O). reflexivity.
Qed.

(** A level out of range in any one dimension makes the whole call fail
    with IndexError, the exception of the rule function: for a single level
    with any number of distributions, and for a sequence of [D >= 2] levels
    of which at least one is out of range, wherever it stands and whatever
    the other levels are.  No part of a rule is returned. *)
Theorem invalid_level_propagates (ndtr : Q -> Q) (f : family) (order : pyobj)
    (dist : Dist) :
  dist <> [] ->
  match order with
  | PyInt n => out_of_range f n
  | PySeq l =>
      (2 <= length dist)%nat /\ length l = length dist /\
      Exists (out_of_range f) l
  end ->
  gk ndtr order dist (rule_of f) = Raise IndexError.
Proof.
  intros NE H. unfold gk. destruct order as [n|l].
  - destruct (1 <? length dist)%nat.
    + destruct dist as [|d dist]; [congruence|]. simpl.
      rewrite (gk_single_out_of_range ndtr f n [d] H). reflexivity.
    + apply gk_single_out_of_range. exact H.
  - destruct H as (D & L & E).
    replace (1 <? length dist)%nat with true
      by (symmetry; apply Nat.ltb_lt; lia).
    apply Exists_exists in E as (a & I & O).
    apply in_split in I as (l1 & l2 & ->).
    rewrite length_app in L. simpl in L.
    replace (seq 0 (length dist))
      with (seq 0 (length l1)
              ++ length l1 :: seq (S (length l1)) (length l2)).
    2:{ rewrite <- L. rewrite seq_app. reflexivity. }
    rewrite (comprehension_raise _ IndexError); [reflexivity| |].
    + intros i I. apply in_seq in I.
      destruct (getitem_nonneg (l1 ++ a :: l2) (Z.of_nat i)) as (o & _ & G).
      { rewrite length_app. simpl. lia. }
      rewrite G. simpl.
      destruct (nth_error dist i) as [d|].
      * apply gk_single_int_outcome.
      * left. reflexivity.
    + destruct (getitem_nonneg (l1 ++ a :: l2) (Z.of_nat (length l1)))
        as (o & N & G).
      { rewrite length_app. simpl. lia. }
      rewrite Nat2Z.id, nth_error_app2, Nat.sub_diag in N by lia.
      simpl in N. injection N as <-. rewrite G. simpl.
      destruct (nth_error dist (length l1)) as [d|] eqn:Nd.
      * apply gk_single_out_of_range. exact O.
      * reflexivity.
Qed.

Lemma invalid_level_propagates_witness :
  gk (fun q => q) (PySeq [0; 7; 99]%Z)
     [ {| inv := fun q => q |}; {| inv := fun q => q |}; {| inv := fun q => q |} ]
     (rule_of GK24)
  = Raise IndexError.
Proof.
  apply (invalid_level_propagates (fun q => q) GK24 (PySeq [0; 7; 99]%Z)).
  - discriminate.
  - split; [simpl; lia|]. split; [reflexivity|].
    apply Exists_cons_tl. apply Exists_cons_hd. right. simpl. lia.
Defined.

(** ** A single level for several dimensions *)

Lemma comprehension_map {A B C : Type} (h : B -> result C) (g : A -> B)
    (l : list A) :
  comprehension h (map g l) = comprehension (fun a => h (g a)) l.
Proof.
  induction l as [|a l IH]; simpl; [reflexivity|]. rewrite IH. reflexivity.
Qed.

Lemma comprehension_by_index {A B : Type} (h : A -> result B) (l : list A) :
  comprehension
    (fun i => match nth_error l i with
              | Some a => h a
              | None => Raise IndexError
              end)
    (seq 0 (length l))
  = comprehension h l.
Proof.
  induction l as [|a l IH]; simpl; [reflexivity|].
  rewrite <- seq_shift, comprehension_map. simpl. rewrite IH. reflexivity.
Qed.

(** For two distributions and more, an integer [order] is the same as the
    sequence that repeats it once per dimension: the two branches of [gk]
    make the same calls in the same order, so they agree on the rule
    returned and on the exception raised, whatever the level and the
    [rule]. *)
Theorem integer_order_is_repeated (ndtr : Q -> Q) (n : Z) (dist : Dist)
    (rule : Z) :
  (2 <= length dist)%nat ->
  gk ndtr (PyInt n) dist rule
  = gk ndtr (PySeq (repeat n (length dist))) dist rule.
Proof.
  intros D. unfold gk.
  replace (1 <? length dist)%nat with true
    by (symmetry; apply Nat.ltb_lt; lia).
  f_equal.
  rewrite <- (comprehension_by_index
                (fun d => gk_single ndtr (PyInt n) [d] rule) dist).
  apply comprehension_ext. intros i I. apply in_seq in I.
  destruct (getitem_nonneg (repeat n (length dist)) (Z.of_nat i))
    as (o & N & G).
  { rewrite repeat_length. lia. }
  rewrite G. simpl. rewrite Nat2Z.id in N.
  apply nth_error_In, repeat_spec in N. subst o. reflexivity.
Qed.

Lemma integer_order_is_repeated_witness :
  gk (fun q => q) (PyInt 2)
     [ {| inv := fun q => q |}; {| inv := fun q => q + 1 |} ] 18
  = gk (fun q => q) (PySeq (repeat 2%Z 2))
       [ {| inv := fun q => q |}; {| inv := fun q => q + 1 |} ] 18.
Proof.
  apply (integer_order_is_repeated (fun q => q) 2
           [ {| inv := fun q => q |}; {| inv := fun q => q + 1 |} ] 18).
  simpl. lia.
Defined.

(** ** The lowest level *)

(** Level 0 of every family is the one-point rule. *)
Lemma rule_at_level_0 (f : family) : rule_at f 0 = ([0], [1]).
Proof. destruct f; vm_compute; reflexivity. Qed.

Lemma combine_singletons {A : Type} (l : list A) :
  utils.combine (map (fun a => [a]) l) = [l].
Proof.
  induction l as [|a l IH]; simpl; [reflexivity|]. rewrite IH. reflexivity.
Qed.

Lemma transpose_one_row (row : array) :
  transpose (length row) [row] = map (fun v => [v]) row.
Proof.
  unfold transpose. rewrite <- (map_nth_seq row) at 2. rewrite map_map.
  reflexivity.
Qed.

Lemma np_prod_repeat_1 (k : nat) : np_prod (repeat 1 k) = 1.
Proof.
  induction k as [|k IH]; [reflexivity|].
  change (np_prod (repeat 1 (S k))) with (Qred (1 * np_prod (repeat 1 k))).
  rewrite IH. reflexivity.
Qed.

(** At level 0, for any number of distributions and any family, [gk]
    returns the single node that has in each dimension the image of 0 under
    [ndtr] and the inverse distribution function of that dimension, with
    the single weight 1. *)
Theorem gk_level_0 (ndtr : Q -> Q) (f : family) (dist : Dist) :
  dist <> [] ->
  gk ndtr (PyInt 0) dist (rule_of f)
  = Ok (map (fun d => [inv d (ndtr 0)]) dist, [1]).
Proof.
  intros NE.
  assert (V : valid_level f 0) by (destruct f; unfold valid_level; simpl; lia).
  destruct dist as [|d [|d' dist']]; [congruence| |].
  - rewrite (gk_one ndtr f 0 d V).
    unfold dimension_rule, abscissas, weights. rewrite rule_at_level_0.
    reflexivity.
  - remember (d :: d' :: dist') as dist eqn:Ed.
    assert (D : (2 <= length dist)%nat) by (subst dist; simpl; lia).
    rewrite (gk_multi ndtr f (PyInt 0) dist D V). cbv zeta.
    unfold dimension_rules. simpl levels_of.
    rewrite combine_repeat, !map_map.
    unfold dimension_rule, abscissas, weights. simpl fst. simpl snd.
    rewrite rule_at_level_0. simpl fst. simpl snd.
    change (map (fun x : marginal => map (fun v : Q => inv x (ndtr v)) [0]) dist)
      with (map (fun d : marginal => [inv d (ndtr 0)]) dist).
    rewrite <- (map_map (fun d => inv d (ndtr 0)) (fun a => [a])).
    rewrite combine_singletons.
    rewrite <- (map_map (fun _ : marginal => 1) (fun a => [a])).
    rewrite combine_singletons.
    replace (length dist)
      with (length (map (fun d : marginal => inv d (ndtr 0)) dist))
      by apply length_map.
    rewrite transpose_one_row, map_map.
    f_equal. simpl map. f_equal.
    replace (map (fun _ : marginal => 1) dist) with (repeat 1 (length dist)).
    + f_equal. apply np_prod_repeat_1.
    + clear. induction dist as [|d dist IH]; simpl; [reflexivity|].
      rewrite IH. reflexivity.
Qed.

Lemma gk_level_0_witness :
  gk (fun q => q + 3) (PyInt 0)
     [ {| inv := fun q => q |}; {| inv := fun q => 2 * q |} ] (rule_of GK24)
  = Ok ([[0 + 3]; [2 * (0 + 3)]], [1]).
Proof.
  apply (gk_level_0 (fun q => q + 3) GK24
           [ {| inv := fun q => q |}; {| inv := fun q => 2 * q |} ]).
  discriminate.
Defined.

(** ** Polynomial exactness *)

(** The docstrings state, level by level, the precision of each rule: the
    degree up to which it integrates polynomials exactly against the weight
    [exp(-x*x)].  After the division by the sum of the weights and the
    scaling by [sqrt(2)] this is the degree up to which the rule returned
    reproduces the moments of the standard normal distribution. *)
Definition precisions (f : family) : list nat :=
  match f with
  | GK16 => [1; 5; 7; 15; 17; 29; 31; 33; 51]
  | GK18 => [1; 5; 15; 29; 55]
  | GK22 => [1; 5; 15; 29; 63]
  | GK24 => [1; 5; 15; 29; 67]
  end%nat.

(** [x ** k] *)
Fixpoint power (x : Q) (k : nat) : Q :=
  match k with
  | O => 1
  | S j => x * power x j
  end.

(** What the rule [(x, w)] gives for the integral of [t ** k]. *)
Definition moment (k : nat) (r : array * array) : Q :=
  np_sum (map (fun p => snd p * power (fst p) k) (List.combine (fst r) (snd r))).

(** [(k-1) * (k-3) * ...], down to 1 or 2: for even [k] the double
    factorial [(k-1)!!]. *)
Fixpoint odd_product (k : nat) : Z :=
  match k with
  | S (S j as i) => (Z.of_nat i * odd_product j)%Z
  | _ => 1%Z
  end.

(** The moment of degree [k] of the standard normal distribution: zero for
    odd [k], [(k-1)!!] for even [k]. *)
Definition gauss (k : nat) : Z :=
  if Nat.even k then odd_product k else 0%Z.

(** The size against which an error at degree [k] is measured: the moment
    itself where it is not zero. *)
Definition magnitude (k : nat) : Z :=
  if Nat.even k then odd_product k else 1%Z.

(** The rule reproduces the moment of degree [k] within [tolerance],
    relative to its magnitude. *)
Definition exact_at (k : nat) (r : array * array) : Prop :=
  Qabs (moment k r - inject_Z (gauss k)) <= tolerance * inject_Z (magnitude k).

#[local] Instance power_wd : Proper (Qeq ==> eq ==> Qeq) power.
Proof.
  intros x y E k k' <-. induction k as [|k IH]; simpl; [reflexivity|].
  apply Qmult_comp; [exact E | exact IH].
Qed.

Lemma power_mult (x y : Q) (k : nat) : power (x * y) k == power x k * power y k.
Proof.
  induction k as [|k IH]; simpl; [ring|]. rewrite IH. ring.
Qed.

Lemma power_inject_Z (z : Z) (k : nat) :
  power (inject_Z z) k == inject_Z (z ^ Z.of_nat k).
Proof.
  induction k as [|k IH]; [reflexivity|].
  rewrite Nat2Z.inj_succ, Z.pow_succ_r by lia.
  rewrite inject_Z_mult. simpl. rewrite IH. reflexivity.
Qed.

(** An array in fixed point: the integers [v * 10^e]. *)
Definition fixed (e : Z) (v : Q) : Z := Qnum (Qred (v * inject_Z (10 ^ e))).

Definition is_fixed (e : Z) (v : Q) : bool :=
  (Z.pos (Qden (Qred (v * inject_Z (10 ^ e)))) =? 1)%Z.

Lemma fixed_correct (e : Z) (v : Q) :
  is_fixed e v = true -> v * inject_Z (10 ^ e) == inject_Z (fixed e v).
Proof.
  unfold is_fixed, fixed. intros H. apply Z.eqb_eq in H.
  rewrite <- (Qred_correct (v * inject_Z (10 ^ e))) at 1.
  destruct (Qred (v * inject_Z (10 ^ e))) as [num den]. simpl in *.
  injection H as ->. reflexivity.
Qed.

Lemma fixed_array (e : Z) (a : array) :
  forallb (is_fixed e) a = true ->
  Forall2 (fun v z => v * inject_Z (10 ^ e) == inject_Z z) a (map (fixed e) a).
Proof.
  induction a as [|v a IH]; simpl; intros H; [constructor|].
  apply andb_true_iff in H as [H1 H2].
  constructor; [apply fixed_correct; exact H1 | apply IH; exact H2].
Qed.

Definition sumZ (l : list Z) : Z := fold_right Z.add 0%Z l.

Lemma np_sum_fixed (e : Z) (a : array) (zs : list Z) :
  Forall2 (fun v z => v * inject_Z (10 ^ e) == inject_Z z) a zs ->
  np_sum a * inject_Z (10 ^ e) == inject_Z (sumZ zs).
Proof.
  induction 1 as [|v z a zs Hv _ IH]; simpl.
  - rewrite np_sum_nil. reflexivity.
  - rewrite np_sum_cons, inject_Z_plus, <- Hv, <- IH. ring.
Qed.

(** [np.sqrt(2)] in fixed point: [np_sqrt2 * 2^52] is this integer. *)
Definition sqrt2_mantissa : Z := 6369051672525773.

Lemma np_sqrt2_fixed : np_sqrt2 * inject_Z (2 ^ 52) == inject_Z sqrt2_mantissa.
Proof. reflexivity. Qed.

(** One term of a moment of the rule returned, in integers: the weight
    [vw / s] and the abscissa [vx * sqrt 2], for a weight and an abscissa of
    the table that are [W / 10^b] and [X / 10^a]. *)
Lemma term_scaled (a b : Z) (s vx vw : Q) (X W : Z) (k : nat) :
  ~ s == 0 ->
  vx * inject_Z (10 ^ a) == inject_Z X ->
  vw * inject_Z (10 ^ b) == inject_Z W ->
  Qred (vw / s) * power (Qred (vx * np_sqrt2)) k
  * (power (inject_Z (2 ^ 52 * 10 ^ a)) k * (s * inject_Z (10 ^ b)))
  == inject_Z (W * (sqrt2_mantissa * X) ^ Z.of_nat k).
Proof.
  intros Hs Hx Hw.
  rewrite !Qred_correct.
  rewrite (inject_Z_mult W), <- power_inject_Z.
  rewrite (inject_Z_mult sqrt2_mantissa X), <- Hw, <- Hx.
  rewrite <- np_sqrt2_fixed.
  transitivity (vw * inject_Z (10 ^ b)
                * (power (vx * np_sqrt2) k * power (inject_Z (2 ^ 52 * 10 ^ a)) k)).
  - field. exact Hs.
  - rewrite <- power_mult. apply Qmult_comp; [reflexivity|].
    apply power_wd; [|reflexivity].
    rewrite inject_Z_mult. ring.
Qed.

Lemma moment_scaled (a b : Z) (s : Q) (k : nat) :
  ~ s == 0 ->
  forall x0 Xs,
    Forall2 (fun v z => v * inject_Z (10 ^ a) == inject_Z z) x0 Xs ->
    forall w0 Ws,
      Forall2 (fun v z => v * inject_Z (10 ^ b) == inject_Z z) w0 Ws ->
      moment k (scale_by_sqrt2 x0, map (fun v => Qred (v / s)) w0)
      * (power (inject_Z (2 ^ 52 * 10 ^ a)) k * (s * inject_Z (10 ^ b)))
      == inject_Z
           (sumZ (map (fun p => (fst p * snd p ^ Z.of_nat k)%Z)
                      (List.combine Ws (map (Z.mul sqrt2_mantissa) Xs)))).
Proof.
  intros Hs x0 Xs Fx. unfold moment, scale_by_sqrt2. simpl fst. simpl snd.
  induction Fx as [|vx X x0 Xs Hx _ IH]; intros w0 Ws Fw.
  - destruct Fw; simpl; rewrite np_sum_nil; ring.
  - destruct Fw as [|vw W w0 Ws Hw Fw].
    + simpl. rewrite np_sum_nil. ring.
    + simpl map. simpl List.combine. simpl map.
      rewrite np_sum_cons. simpl sumZ. rewrite inject_Z_plus.
      rewrite <- (IH w0 Ws Fw).
      simpl fst. simpl snd.
      rewrite <- (term_scaled a b s vx vw X W k Hs Hx Hw).
      ring.
Qed.

(** The comparison of a quotient of integers with a moment, in integers. *)
Definition testZ (k : nat) (U V : Z) : bool :=
  (Z.abs (U - gauss k * V) * 10 ^ 12 <=? magnitude k * Z.abs V)%Z.

Lemma tolerance_fixed : tolerance == 1 # 1000000000000.
Proof. reflexivity. Qed.

Lemma Qmake_to_pos (m : Q) (U V : Z) :
  (0 < V)%Z -> m * inject_Z V == inject_Z U -> m == U # Z.to_pos V.
Proof.
  intros HV Hm. destruct m as [n d]. revert Hm. unfold Qeq, Qmult, inject_Z.
  cbn [Qnum Qden]. rewrite Z2Pos.id by exact HV.
  rewrite !Pos2Z.inj_mul. intros H. lia.
Qed.

Lemma testZ_correct (k : nat) (m : Q) (U V : Z) :
  (0 < V)%Z -> m * inject_Z V == inject_Z U ->
  (testZ k U V = true <->
   Qabs (m - inject_Z (gauss k)) <= tolerance * inject_Z (magnitude k)).
Proof.
  intros HV Hm.
  assert (E : m - inject_Z (gauss k) == (U - gauss k * V) # Z.to_pos V).
  { rewrite (Qmake_to_pos m U V HV Hm).
    unfold Qeq, Qminus, Qplus, Qopp, inject_Z. cbn [Qnum Qden].
    rewrite !Pos2Z.inj_mul, Z2Pos.id by exact HV. ring. }
  rewrite E, tolerance_fixed. unfold testZ.
  rewrite Z.leb_le. unfold Qabs, Qle, Qmult, inject_Z. cbn [Qnum Qden].
  rewrite !Pos2Z.inj_mul, Z2Pos.id by exact HV. rewrite (Z.abs_eq V) by lia.
  change (10 ^ 12)%Z with 1000000000000%Z.
  split; intros H; lia.
Qed.

(** The comparisons for the degrees [k, k+1, ...], on integers: [AY] holds,
    node by node, the weight times the current power of the abscissa and
    the abscissa, [V] the current denominator and [C] its factor from one
    degree to the next. *)
Fixpoint runZ (C : Z) (fuel k : nat) (AY : list (Z * Z)) (V : Z) : list bool :=
  match fuel with
  | O => []
  | S fuel' =>
      testZ k (sumZ (map fst AY)) V
      :: runZ C fuel' (S k) (map (fun p => (fst p * snd p, snd p)%Z) AY) (V * C)
  end.

Lemma runZ_nth (C : Z) (fuel : nat) :
  forall (k : nat) (AY : list (Z * Z)) (V : Z) (j : nat),
    (j < fuel)%nat ->
    nth_error (runZ C fuel k AY V) j
    = Some (testZ (k + j)
              (sumZ (map (fun p => (fst p * snd p ^ Z.of_nat j)%Z) AY))
              (V * C ^ Z.of_nat j)).
Proof.
  induction fuel as [|fuel IH]; intros k AY V j J; [lia|].
  destruct j as [|j]; simpl runZ; simpl nth_error.
  - rewrite Nat.add_0_r. f_equal. f_equal.
    + f_equal. apply map_ext. intros p. simpl. lia.
    + simpl. lia.
  - rewrite IH by lia. rewrite map_map. simpl fst. simpl snd.
    rewrite Nat.add_succ_r. f_equal. f_equal.
    + f_equal. apply map_ext. intros p.
      rewrite Nat2Z.inj_succ, Z.pow_succ_r by lia. ring.
    + rewrite Nat2Z.inj_succ, Z.pow_succ_r by lia. ring.
Qed.

From Bignums Require Import BigZ.

(** The same comparisons on machine-word integers, for evaluation. *)
Definition test (k : nat) (U V : bigZ) : bool :=
  BigZ.leb
    (BigZ.mul (BigZ.abs (BigZ.sub U (BigZ.mul (BigZ.of_Z (gauss k)) V)))
              (BigZ.of_Z (10 ^ 12)))
    (BigZ.mul (BigZ.of_Z (magnitude k)) (BigZ.abs V)).

Fixpoint run (C : bigZ) (fuel k : nat) (AY : list (bigZ * bigZ)) (V : bigZ)
  : list bool :=
  match fuel with
  | O => []
  | S fuel' =>
      test k (fold_right BigZ.add BigZ.zero (map fst AY)) V
      :: run C fuel' (S k)
           (map (fun p => (BigZ.mul (fst p) (snd p), snd p)) AY) (BigZ.mul V C)
  end.

Definition to_Z2 (p : bigZ * bigZ) : Z * Z := (BigZ.to_Z (fst p), BigZ.to_Z (snd p)).

Lemma test_spec (k : nat) (U V : bigZ) :
  test k U V = testZ k (BigZ.to_Z U) (BigZ.to_Z V).
Proof.
  unfold test, testZ.
  rewrite BigZ.spec_leb, !BigZ.spec_mul, !BigZ.spec_abs, BigZ.spec_sub,
    BigZ.spec_mul, !BigZ.spec_of_Z.
  reflexivity.
Qed.

Lemma sum_spec (l : list bigZ) :
  BigZ.to_Z (fold_right BigZ.add BigZ.zero l) = sumZ (map BigZ.to_Z l).
Proof.
  induction l as [|a l IH]; simpl; [reflexivity|].
  rewrite BigZ.spec_add, IH. reflexivity.
Qed.

Lemma run_spec (C : bigZ) (fuel : nat) :
  forall (k : nat) (AY : list (bigZ * bigZ)) (V : bigZ),
    run C fuel k AY V
    = runZ (BigZ.to_Z C) fuel k (map to_Z2 AY) (BigZ.to_Z V).
Proof.
  induction fuel as [|fuel IH]; intros k AY V; simpl; [reflexivity|].
  rewrite test_spec, sum_spec, IH, BigZ.spec_mul, !map_map. f_equal.
  f_equal. apply map_ext. intros [a y]. unfold to_Z2. simpl.
  rewrite BigZ.spec_mul. reflexivity.
Qed.

Lemma to_Z2_of_Z (ws ys : list Z) :
  map to_Z2 (List.combine (map BigZ.of_Z ws) (map BigZ.of_Z ys))
  = List.combine ws ys.
Proof.
  revert ys. induction ws as [|w ws IH]; intros [|y ys]; simpl;
    try reflexivity.
  unfold to_Z2 at 1. simpl. rewrite !BigZ.spec_of_Z, IH. reflexivity.
Qed.

(** The arrays an if/elif chain leaves for the order [o], before [w] is
    normalised and [x] scaled. *)
Definition raw (f : family) (o : Z) : array * array :=
  match select (chain_of f) o with
  | Some (bx, bw) =>
      match fill (zeros o) bx, fill (zeros o) bw with
      | Ok x, Ok w => (x, w)
      | _, _ => ([], [])
      end
  | None => (zeros o, zeros o)
  end.

Lemma rule_at_raw (f : family) (n o : Z) :
  getitem (levels f) (PyInt n) = Ok o ->
  ~ np_sum (snd (raw f o)) == 0 /\
  rule_at f n
  = (scale_by_sqrt2 (fst (raw f o)),
     map (fun v => Qred (v / np_sum (snd (raw f o)))) (snd (raw f o))).
Proof.
  intros G. pose proof (getitem_Ok_In _ _ _ G) as I.
  pose proof (branch_check_level f o I) as C. unfold branch_check in C.
  apply andb_true_iff in C as [_ C].
  unfold rule_at. rewrite rule_fn_body, rule_body_lookup, G. simpl.
  unfold after_lookup, raw.
  destruct (select (chain_of f) o) as [[bx bw]|]; [|discriminate].
  destruct (fill (zeros o) bx) as [x| |]; try discriminate.
  destruct (fill (zeros o) bw) as [w| |]; try discriminate.
  apply andb_true_iff in C as [_ C]. apply negb_true_iff in C.
  simpl. unfold divide_by_sum. rewrite C. simpl.
  split; [apply Qeq_bool_neq; exact C | reflexivity].
Qed.

(** The decimal places that hold every abscissa and every weight of the
    tables. *)
Definition abscissa_places : Z := 18.
Definition weight_places : Z := 55.

Definition same_bools (a b : list bool) : bool :=
  if list_eq_dec bool_dec a b then true else false.

(** The check of one rule: its table is in fixed point, its weights have a
    positive sum, and the comparisons of the degrees [0 .. P+1] come out
    true up to [P] and false at [P+1]. *)
Definition exactness_check (f : family) (o : Z) (P : nat) : bool :=
  let r := raw f o in
  let Xs := map (fixed abscissa_places) (fst r) in
  let Ws := map (fixed weight_places) (snd r) in
  forallb (is_fixed abscissa_places) (fst r)
  && forallb (is_fixed weight_places) (snd r)
  && (0 <? sumZ Ws)%Z
  && same_bools
       (run (BigZ.of_Z (2 ^ 52 * 10 ^ abscissa_places)) (P + 2) 0
          (List.combine (map BigZ.of_Z Ws)
             (map BigZ.of_Z (map (Z.mul sqrt2_mantissa) Xs)))
          (BigZ.of_Z (sumZ Ws)))
       (repeat true (P + 1) ++ [false]).

(** The levels with their orders and precisions, family by family; the
    order-19 branch of [gk16] is left out. *)
Definition documented (f : family) : list (Z * nat) :=
  filter (fun op => negb (match f with GK16 => (fst op =? 19)%Z | _ => false end))
         (List.combine (levels f) (precisions f)).

Lemma exactness_check_all :
  forallb
    (fun f => forallb (fun op => exactness_check f (fst op) (snd op))
                      (documented f))
    families = true.
Proof. vm_compute. reflexivity. Qed.

Lemma exactness_check_sound (f : family) (n o : Z) (P : nat) :
  getitem (levels f) (PyInt n) = Ok o ->
  exactness_check f o P = true ->
  (forall k, (k <= P)%nat -> exact_at k (rule_at f n)) /\
  ~ exact_at (P + 1) (rule_at f n).
Proof.
  intros G C. destruct (rule_at_raw f n o G) as [Hs ->].
  unfold exactness_check in C. cbv zeta in C.
  apply andb_true_iff in C as [C C4]. apply andb_true_iff in C as [C C3].
  apply andb_true_iff in C as [C1 C2].
  apply Z.ltb_lt in C3.
  unfold same_bools in C4.
  destruct (list_eq_dec bool_dec _ _) as [E|]; [|discriminate]. clear C4.
  rewrite run_spec, !BigZ.spec_of_Z, to_Z2_of_Z in E.
  pose proof (fixed_array _ _ C1) as Fx. pose proof (fixed_array _ _ C2) as Fw.
  set (Xs := map (fixed abscissa_places) (fst (raw f o))) in *.
  set (Ws := map (fixed weight_places) (snd (raw f o))) in *.
  set (s := np_sum (snd (raw f o))) in *.
  assert (S : s * inject_Z (10 ^ weight_places) == inject_Z (sumZ Ws))
    by (apply np_sum_fixed; exact Fw).
  assert (T : forall k, (k < P + 2)%nat ->
              (nth_error (repeat true (P + 1) ++ [false]) k = Some true <->
               exact_at k (scale_by_sqrt2 (fst (raw f o)),
                           map (fun v => Qred (v / s)) (snd (raw f o))))).
  { intros k K. rewrite <- E, (runZ_nth _ _ _ _ _ _ K). simpl Nat.add.
    set (U := sumZ _). set (V := (sumZ Ws * _)%Z).
    assert (HV : (0 < V)%Z).
    { subst V. apply Z.mul_pos_pos; [exact C3|].
      apply Z.pow_pos_nonneg; [reflexivity | lia]. }
    unfold exact_at. rewrite <- (testZ_correct k _ U V HV).
    - split; [intros H; injection H; auto | intros ->; reflexivity].
    - subst U V.
      rewrite <- (moment_scaled abscissa_places weight_places s k Hs _ _ Fx _ _ Fw).
      apply Qmult_comp; [reflexivity|].
      rewrite inject_Z_mult, <- power_inject_Z, <- S. ring. }
  split.
  - intros k K. apply T; [lia|].
    rewrite nth_error_app1 by (rewrite repeat_length; lia).
    apply nth_error_repeat. lia.
  - intros H. apply T in H; [|lia].
    rewrite nth_error_app2 in H by (rewrite repeat_length; lia).
    rewrite repeat_length, Nat.sub_diag in H. discriminate H.
Qed.

(** Every rule but the one [gk16] returns at level 5 keeps the precision its
    docstring states: it reproduces the moments of the standard normal
    distribution of all degrees up to [P] within [tolerance] (relative to
    the moment; absolute for the odd degrees, whose moment is zero), and
    it does not reproduce the moment of degree [P + 1]. *)
Theorem rules_exact_to_their_precision (f : family) (n : Z) (P : nat) :
  valid_level f n -> (f, n) <> (GK16, 5%Z) ->
  nth_error (precisions f) (Z.to_nat n) = Some P ->
  (forall k, (k <= P)%nat -> exact_at k (rule_at f n)) /\
  ~ exact_at (P + 1) (rule_at f n).
Proof.
  intros V NE HP.
  destruct (getitem_nonneg (levels f) n V) as (o & N & G).
  apply (exactness_check_sound f n o P G).
  pose proof exactness_check_all as A.
  rewrite forallb_forall in A. specialize (A f (in_families f)).
  rewrite forallb_forall in A. apply (A (o, P)).
  unfold documented. apply filter_In. split.
  - assert (X : forall (l : list Z) (m : list nat) i a b,
               nth_error l i = Some a -> nth_error m i = Some b ->
               In (a, b) (List.combine l m)).
    { induction l as [|x l IH]; intros m [|i] a b Ha Hb; simpl in Ha;
        try discriminate; destruct m as [|y m]; simpl in Hb;
        try discriminate.
      - injection Ha as <-. injection Hb as <-. left. reflexivity.
      - right. eapply IH; eauto. }
    eapply X; eauto.
  - destruct f; try reflexivity. simpl fst.
    destruct (o =? 19)%Z eqn:E; [|reflexivity]. exfalso. apply NE.
    apply Z.eqb_eq in E. subst o. f_equal.
    unfold valid_level in V. simpl in V, N.
    assert (Z.to_nat n = 5%nat).
    { destruct (Z.to_nat n) as [|[|[|[|[|[|[|[|[|k]]]]]]]]]; simpl in N;
        try discriminate; try reflexivity.
      destruct k; discriminate. }
    lia.
Qed.

Lemma rules_exact_to_their_precision_witness :
  (forall k, (k <= 67)%nat -> exact_at k (rule_at GK24 4)) /\
  ~ exact_at (67 + 1) (rule_at GK24 4).
Proof.
  apply (rules_exact_to_their_precision GK24 4 67).
  - unfold valid_level. simpl. lia.
  - discriminate.
  - reflexivity.
Defined.

(** The rule [gk16] returns at level 5 does not keep the precision 29 of its
    docstring: it misses already the moment of degree 1, the mean, which
    comes out beyond 0.08 instead of 0 (the abscissa lost by the order-19
    branch is not there to balance its mirror image). *)
Theorem gk16_level_5_misses_the_mean :
  gk16 (PyInt 5) = Ok (rule_at GK16 5) /\
  nth_error (precisions GK16) 5 = Some 29%nat /\
  ~ exact_at 1 (rule_at GK16 5) /\
  0.08 <= Qabs (moment 1 (rule_at GK16 5)).
Proof.
  split; [vm_compute; reflexivity|]. split; [reflexivity|]. split.
  - unfold exact_at. intros H. apply Qle_bool_iff in H.
    vm_compute in H. discriminate H.
  - apply Qle_bool_iff. vm_compute. reflexivity.
Qed.

(** ** Integrals of products *)

(** What a one-dimensional rule gives for the integral of [g]. *)
Definition integral (g : Q -> Q) (r : array * array) : Q :=
  np_sum (map (fun p => snd p * g (fst p)) (List.combine (fst r) (snd r))).

(** The functions [g], one per dimension, at the coordinates [t]. *)
Definition apply_each (g : list (Q -> Q)) (t : array) : array :=
  map (fun p => fst p (snd p)) (List.combine g t).

(** What a combined rule gives for the integral of the product
    [g1(t1) * ... * gD(tD)]: the sum over the columns [j] of weight [j] times
    the product of the [gd] at the coordinates of node [j]. *)
Definition integral_of_product (g : list (Q -> Q)) (nodes : list array)
    (wts : array) : Q :=
  np_sum
    (map (fun j =>
            nth j wts 0
            * np_prod (apply_each g (map (fun row => nth j row 0) nodes)))
         (seq 0 (length wts))).

(** A node with its weight, and what it adds to the integral of [g]. *)
Definition paired (r : array * array) : list (Q * Q) :=
  List.combine (fst r) (snd r).

Definition weighted (g : list (Q -> Q)) (row : list (Q * Q)) : array :=
  map (fun p => snd (snd p) * fst p (fst (snd p))) (List.combine g row).

Lemma map_fst_paired (r : array * array) :
  length (fst r) = length (snd r) -> map fst (paired r) = fst r.
Proof.
  destruct r as [x w]. unfold paired. simpl. revert w.
  induction x as [|a x IH]; intros [|b w] H; simpl in *; try discriminate;
    [reflexivity|]. f_equal. apply IH. lia.
Qed.

Lemma map_snd_paired (r : array * array) :
  length (fst r) = length (snd r) -> map snd (paired r) = snd r.
Proof.
  destruct r as [x w]. unfold paired. simpl. revert w.
  induction x as [|a x IH]; intros [|b w] H; simpl in *; try discriminate;
    [reflexivity|]. f_equal. apply IH. lia.
Qed.

(** The product of the weights of a tuple times the product of the values
    of the [g] at its nodes, dimension by dimension. *)
Lemma np_prod_weighted (g : list (Q -> Q)) (row : list (Q * Q)) :
  length g = length row ->
  np_prod (map snd row) * np_prod (apply_each g (map fst row))
  == np_prod (weighted g row).
Proof.
  unfold weighted, apply_each. revert row.
  induction g as [|h g IH]; intros [|[x w] row] H; simpl in H;
    try discriminate; simpl.
  - rewrite np_prod_nil. ring.
  - rewrite !np_prod_cons. simpl. rewrite <- IH by lia. ring.
Qed.

(** The product of lists commutes with a map that differs from dimension to
    dimension. *)
Lemma utils_combine_weighted (g : list (Q -> Q)) (PP : list (list (Q * Q))) :
  length g = length PP ->
  utils.combine
    (map (fun p => map (fun xw => snd xw * fst p (fst xw)) (snd p))
         (List.combine g PP))
  = map (weighted g) (utils.combine PP).
Proof.
  revert PP. induction g as [|h g IH]; intros [|l PP] H; simpl in H;
    try discriminate; simpl; [reflexivity|].
  rewrite IH by lia. clear IH.
  induction l as [|[x w] l IHl]; simpl; [reflexivity|].
  rewrite map_app, IHl. f_equal. rewrite !map_map. reflexivity.
Qed.

Lemma np_sum_ext (F G : nat -> Q) (l : list nat) :
  (forall j, In j l -> F j == G j) -> np_sum (map F l) == np_sum (map G l).
Proof.
  induction l as [|a l IH]; intros H; simpl; [reflexivity|].
  rewrite !np_sum_cons, (H a (or_introl eq_refl)).
  rewrite IH by (intros j I; apply H; right; exact I). reflexivity.
Qed.

(** A sum over the indices of a list is the sum over the list. *)
Lemma np_sum_by_index {A : Type} (d : A) (G : A -> Q) (L : list A) :
  np_sum (map (fun j => G (nth j L d)) (seq 0 (length L))) == np_sum (map G L).
Proof.
  induction L as [|a L IH]; simpl; [reflexivity|].
  rewrite !np_sum_cons, <- seq_shift, map_map. simpl. rewrite IH. reflexivity.
Qed.

Lemma dimension_rules_balanced (ndtr : Q -> Q) (f : family) (lv : list Z)
    (dist : Dist) :
  Forall (valid_level f) lv ->
  Forall (fun r => length (fst r) = length (snd r))
         (dimension_rules ndtr f lv dist).
Proof.
  intros V. unfold dimension_rules. apply Forall_forall. intros r I.
  apply in_map_iff in I as ([o d] & <- & I). apply in_combine_l in I.
  rewrite Forall_forall in V. specialize (V o I).
  unfold dimension_rule, abscissas, weights. simpl.
  rewrite length_map. apply (rule_at_nonempty f o V).
Qed.

Lemma combine_map_r {A B C : Type} (h : B -> C) (l : list A) (m : list B) :
  List.combine l (map h m) = map (fun p => (fst p, h (snd p))) (List.combine l m).
Proof.
  revert m. induction l as [|a l IH]; intros [|b m]; simpl; try reflexivity.
  rewrite IH. reflexivity.
Qed.

(** The combined rule integrates a product of functions of one coordinate
    each to the product of what the rules of the dimensions give for their
    factors: for every valid call and all functions [g1 .. gD],
    [sum_j weights[j] * g1(nodes[0][j]) * ... * gD(nodes[D-1][j])] equals
    [prod_d sum_i w_d[i] * g_d(x_d[i])], the [x_d] being the nodes of
    dimension [d] in the domain of its distribution. *)
Theorem gk_integrates_products (ndtr : Q -> Q) (f : family) (order : pyobj)
    (dist : Dist) :
  dist <> [] -> valid_order f (length dist) order ->
  exists nodes wts,
    gk ndtr order dist (rule_of f) = Ok (nodes, wts) /\
    forall g : list (Q -> Q),
      length g = length dist ->
      integral_of_product g nodes wts
      == np_prod
           (map (fun p => integral (fst p) (snd p))
                (List.combine g
                   (dimension_rules ndtr f (levels_of order (length dist)) dist))).
Proof.
  intros NE V.
  set (rules := dimension_rules ndtr f (levels_of order (length dist)) dist).
  assert (LR : length rules = length dist).
  { apply dimension_rules_length, (levels_of_length f); exact V. }
  assert (B : Forall (fun r => length (fst r) = length (snd r)) rules).
  { apply dimension_rules_balanced, levels_of_valid; exact V. }
  destruct dist as [|d [|d' dist']]; [congruence| |].
  - (* one dimension *)
    destruct order as [n|l]; simpl in V; [|lia].
    exists [fst (dimension_rule ndtr f (n, d))], (snd (dimension_rule ndtr f (n, d))).
    split; [apply gk_one; exact V|].
    intros [|h [|h' g]] Lg; simpl in Lg; try discriminate.
    subst rules. unfold dimension_rules, dimension_rule in *.
    simpl in B |- *.
    inversion B as [|r rs Br _]; subst. clear B. simpl in Br.
    set (X := map (fun v => inv d (ndtr v)) (abscissas f n)) in *.
    set (W := weights f n) in *.
    rewrite np_prod_cons, np_prod_nil, Qmult_1_r.
    unfold integral_of_product, integral, apply_each. simpl.
    replace (length W) with (length (List.combine X W))
      by (rewrite length_combine; lia).
    rewrite <- (np_sum_by_index (0, 0) (fun p => snd p * h (fst p))).
    apply np_sum_ext. intros j _.
    rewrite combine_nth by exact Br. simpl.
    rewrite np_prod_cons, np_prod_nil. ring.
  - (* two dimensions and more *)
    remember (d :: d' :: dist') as dist eqn:Ed.
    assert (D : (2 <= length dist)%nat) by (subst dist; simpl; lia).
    exists (transpose (length dist) (utils.combine (map fst rules))),
           (map np_prod (utils.combine (map snd rules))).
    split; [apply gk_multi; assumption|].
    intros g Lg.
    set (PP := map paired rules).
    set (C := utils.combine PP).
    assert (EX : map fst rules = map (map fst) PP).
    { subst PP. rewrite map_map. apply map_ext_in. intros r I. symmetry.
      apply map_fst_paired. rewrite Forall_forall in B. apply B. exact I. }
    assert (EW : map snd rules = map (map snd) PP).
    { subst PP. rewrite map_map. apply map_ext_in. intros r I. symmetry.
      apply map_snd_paired. rewrite Forall_forall in B. apply B. exact I. }
    assert (LP : length PP = length dist)
      by (subst PP; rewrite length_map; exact LR).
    rewrite EX, EW, !utils_combine_map. fold C.
    unfold integral_of_product. rewrite !length_map.
    transitivity
      (np_sum (map (fun j => np_prod (weighted g (nth j C []))) (seq 0 (length C)))).
    + apply np_sum_ext. intros j I. apply in_seq in I.
      assert (N : nth_error C j = Some (nth j C []))
        by (apply nth_error_nth'; lia).
      assert (LR' : length (nth j C []) = length dist).
      { apply nth_error_In in N. subst C. apply utils_combine_rows in N.
        rewrite N. exact LP. }
      rewrite map_map.
      rewrite (nth_error_nth _ _ 0
                 (map_nth_error (fun r => np_prod (map snd r)) j C N)).
      rewrite (transpose_column (length dist) (map (map fst) C) j
                 (map fst (nth j C []))).
      * apply np_prod_weighted. lia.
      * apply map_nth_error. exact N.
      * rewrite length_map. exact LR'.
    + rewrite (np_sum_by_index [] (fun r => np_prod (weighted g r)) C).
      rewrite <- (map_map (weighted g) np_prod).
      subst C. rewrite <- utils_combine_weighted by lia.
      rewrite np_sum_combine.
      subst PP. rewrite combine_map_r, !map_map. reflexivity.
Qed.

Lemma gk_integrates_products_witness :
  exists nodes wts,
    gk (fun q => q) (PySeq [1; 2]%Z)
       [ {| inv := fun q => q |}; {| inv := fun q => q + 1 |} ] (rule_of GK16)
    = Ok (nodes, wts) /\
    forall g : list (Q -> Q),
      length g = 2%nat ->
      integral_of_product g nodes wts
      == np_prod
           (map (fun p => integral (fst p) (snd p))
                (List.combine g
                   (dimension_rules (fun q => q) GK16
                      (levels_of (PySeq [1; 2]%Z) 2)
                      [ {| inv := fun q => q |}; {| inv := fun q => q + 1 |} ]))).
Proof.
  apply (gk_integrates_products (fun q => q) GK16 (PySeq [1; 2]%Z)
           [ {| inv := fun q => q |}; {| inv := fun q => q + 1 |} ]).
  - discriminate.
  - simpl. split; [lia|]. split; [reflexivity|].
    constructor; [unfold valid_level; simpl; lia|].
    constructor; [unfold valid_level; simpl; lia|]. constructor.
Defined.

(** ** Negative levels in the combinator *)

Lemma gk_single_negative (ndtr : Q -> Q) (f : family) (n : Z) (dist : Dist) :
  (- Z.of_nat (length (levels f)) <= n < 0)%Z ->
  gk_single ndtr (PyInt n) dist (rule_of f)
  = gk_single ndtr (PyInt (n + Z.of_nat (length (levels f)))) dist (rule_of f).
Proof.
  intros H. unfold gk_single. rewrite eval_gk_family. simpl.
  rewrite (rule_fn_negative f n H). reflexivity.
Qed.

(** The combinator inherits the negative indices of the level lists: for
    any distributions, [gk] with the level [n] in [-K, 0) is [gk] with the
    level [n + K]; so [gk(-1, dist)] uses the deepest level of the family in
    every dimension. *)
Theorem gk_negative_level (ndtr : Q -> Q) (f : family) (n : Z) (dist : Dist) :
  (- Z.of_nat (length (levels f)) <= n < 0)%Z ->
  gk ndtr (PyInt n) dist (rule_of f)
  = gk ndtr (PyInt (n + Z.of_nat (length (levels f)))) dist (rule_of f).
Proof.
  intros H. unfold gk. destruct (1 <? length dist)%nat.
  - f_equal. apply comprehension_ext. intros d _.
    apply gk_single_negative. exact H.
  - apply gk_single_negative. exact H.
Qed.

Lemma gk_negative_level_witness :
  gk (fun q => q) (PyInt (-1))
     [ {| inv := fun q => q |}; {| inv := fun q => q + 1 |} ] (rule_of GK18)
  = gk (fun q => q) (PyInt (-1 + 5))
       [ {| inv := fun q => q |}; {| inv := fun q => q + 1 |} ] (rule_of GK18).
Proof.
  apply (gk_negative_level (fun q => q) GK18 (-1)
           [ {| inv := fun q => q |}; {| inv := fun q => q + 1 |} ]).
  simpl. lia.
Defined.

(** ** Order of the abscissas *)

From Stdlib Require Import Sorted.

(** The entries of the array increase strictly. *)
Fixpoint increasing (x : array) : bool :=
  match x with
  | a :: (b :: _) as rest => negb (Qle_bool b a) && increasing rest
  | _ => true
  end.

Lemma increasing_sorted (x : array) : increasing x = true -> Sorted Qlt x.
Proof.
  induction x as [|a x IH]; intros H; [constructor|].
  destruct x as [|b x]; [repeat constructor|].
  simpl in H. apply andb_true_iff in H as [H1 H2].
  constructor; [apply IH; exact H2|]. constructor.
  apply negb_true_iff in H1. apply Qnot_le_lt. intros L.
  apply Qle_bool_iff in L. congruence.
Qed.

Lemma np_sqrt2_positive : 0 < np_sqrt2.
Proof. reflexivity. Qed.

(** The scaling by [np.sqrt(2)] keeps the order. *)
Lemma scale_by_sqrt2_sorted (x : array) :
  Sorted Qlt x -> Sorted Qlt (scale_by_sqrt2 x).
Proof.
  induction 1 as [|a x _ IH Hd]; simpl; constructor; [exact IH|].
  destruct Hd as [|b x Hab]; simpl; constructor.
  rewrite !Qred_correct. apply Qmult_lt_compat_r; [apply np_sqrt2_positive|].
  exact Hab.
Qed.

Lemma increasing_tables :
  forallb
    (fun f => forallb (fun op => increasing (fst (raw f (fst op))))
                      (documented f))
    families = true.
Proof. vm_compute. reflexivity. Qed.

Lemma documented_level (f : family) (n o : Z) :
  valid_level f n -> (f, n) <> (GK16, 5%Z) ->
  nth_error (levels f) (Z.to_nat n) = Some o ->
  exists P, nth_error (precisions f) (Z.to_nat n) = Some P /\
            In (o, P) (documented f).
Proof.
  intros V NE N.
  assert (LP : length (precisions f) = length (levels f))
    by (destruct f; reflexivity).
  destruct (nth_error (precisions f) (Z.to_nat n)) as [P|] eqn:HP.
  2:{ apply nth_error_None in HP. unfold valid_level in V. lia. }
  exists P. split; [reflexivity|].
  unfold documented. apply filter_In. split.
  - assert (X : forall (l : list Z) (m : list nat) i a b,
               nth_error l i = Some a -> nth_error m i = Some b ->
               In (a, b) (List.combine l m)).
    { induction l as [|x l IH]; intros m [|i] a b Ha Hb; simpl in Ha;
        try discriminate; destruct m as [|y m]; simpl in Hb;
        try discriminate.
      - injection Ha as <-. injection Hb as <-. left. reflexivity.
      - right. eapply IH; eauto. }
    eapply X; eauto.
  - destruct f; try reflexivity. simpl fst.
    destruct (o =? 19)%Z eqn:E; [|reflexivity]. exfalso. apply NE.
    apply Z.eqb_eq in E. subst o. f_equal.
    unfold valid_level in V. simpl in V, N.
    assert (Z.to_nat n = 5%nat).
    { destruct (Z.to_nat n) as [|[|[|[|[|[|[|[|[|k]]]]]]]]]; simpl in N;
        try discriminate; try reflexivity.
      destruct k; discriminate. }
    lia.
Qed.

(** At every supported level of every family, the level 5 of [gk16] apart,
    the abscissas are returned in strictly increasing order. *)
Theorem abscissas_increase (f : family) (n : Z) :
  valid_level f n -> (f, n) <> (GK16, 5%Z) ->
  Sorted Qlt (abscissas f n).
Proof.
  intros V NE.
  destruct (getitem_nonneg (levels f) n V) as (o & N & G).
  destruct (documented_level f n o V NE N) as (P & _ & I).
  unfold abscissas. rewrite (proj2 (rule_at_raw f n o G)). simpl fst.
  apply scale_by_sqrt2_sorted, increasing_sorted.
  pose proof increasing_tables as A.
  rewrite forallb_forall in A. specialize (A f (in_families f)).
  rewrite forallb_forall in A. exact (A (o, P) I).
Qed.

Lemma abscissas_increase_witness : Sorted Qlt (abscissas GK22 4).
Proof.
  apply (abscissas_increase GK22 4).
  - unfold valid_level. simpl. lia.
  - discriminate.
Defined.

(** Where the order-19 branch of [gk16] leaves its placeholder, the order
    breaks: entry 6 is 0.0, above entry 7. *)
Lemma gk16_level_5_out_of_order :
  nth 6 (abscissas GK16 5) 0 = 0 /\
  nth 7 (abscissas GK16 5) 0 < nth 6 (abscissas GK16 5) 0.
Proof. split; vm_compute; reflexivity. Qed.

(** ** No division by zero *)

Lemma comprehension_not_NaN {A B : Type} (h : A -> result B) (l : list A) :
  (forall a, In a l -> h a <> NaN) -> comprehension h l <> NaN.
Proof.
  induction l as [|a l IH]; intros H; simpl; [discriminate|].
  pose proof (H a (or_introl eq_refl)) as Ha.
  destruct (h a) as [b| |]; simpl; [|discriminate|congruence].
  assert (IH' : comprehension h l <> NaN)
    by (apply IH; intros c I; apply H; right; exact I).
  destruct (comprehension h l) as [bs| |]; simpl; [discriminate|discriminate|congruence].
Qed.

Lemma supported_rule_family (rule : Z) :
  supported_rule rule = true -> exists f, rule = rule_of f.
Proof.
  unfold supported_rule. simpl. rewrite !orb_true_iff, !Z.eqb_eq.
  intros [H|[H|[H|[H|H]]]]; try discriminate;
    [exists GK16 | exists GK18 | exists GK22 | exists GK24]; exact H.
Qed.

Lemma gk_single_not_NaN (ndtr : Q -> Q) (order : pyobj) (dist : Dist) (rule : Z) :
  gk_single ndtr order dist rule <> NaN.
Proof.
  destruct (supported_rule rule) eqn:S.
  - destruct (supported_rule_family rule S) as [f ->].
    unfold gk_single. rewrite eval_gk_family. simpl.
    destruct order as [n|l].
    + destruct (rule_fn_int_outcome f n) as [E|[[x w] E]]; rewrite E; simpl;
        [discriminate|].
      destruct dist as [|d [|d' dist']]; discriminate.
    + rewrite rule_fn_sequence. discriminate.
  - rewrite gk_single_unknown by exact S. discriminate.
Qed.

(** No call of [gk] divides by a zero sum of weights: whatever the order,
    the distributions and the rule selector, valid or not, [gk] returns a
    rule or raises an exception, and the division [w /= np.sum(w)] is
    never reached with weights that sum to zero. *)
Theorem gk_never_divides_by_zero (ndtr : Q -> Q) (order : pyobj) (dist : Dist)
    (rule : Z) :
  gk ndtr order dist rule <> NaN.
Proof.
  unfold gk. destruct (1 <? length dist)%nat; [|apply gk_single_not_NaN].
  assert (X : match order with
              | PyInt _ =>
                  comprehension (fun d => gk_single ndtr order [d] rule) dist
              | PySeq l =>
                  comprehension
                    (fun i =>
                       o <- getitem l (PyInt (Z.of_nat i)) ;;
                       match nth_error dist i with
                       | Some d => gk_single ndtr (PyInt o) [d] rule
                       | None => Raise IndexError
                       end)
                    (seq 0 (length dist))
              end <> NaN).
  { destruct order as [n|l]; apply comprehension_not_NaN.
    - intros d _. apply gk_single_not_NaN.
    - intros i _. unfold getitem.
      destruct (_ && _); simpl; [|discriminate].
      destruct (nth_error l _); simpl; [|discriminate].
      destruct (nth_error dist i); [apply gk_single_not_NaN | discriminate]. }
  destruct (match order with PyInt _ => _ | PySeq _ => _ end) as [xw| |];
    simpl; [discriminate | discriminate | congruence].
Qed.

